(** * tail_tiles: a shallow embedding of [src/tail_tiles.py]

    The development follows the Python module top to bottom:
    [read_last_n_lines], [clamp], the class [TailTile] ([__init__],
    [update], [get_content]), [TileRenderer.adjust_lines] and the polling
    loop of [run_viewer]; then the rest of the module: the calls
    [TileRenderer] makes on the curses window, the whole loop with its
    drawing, [prompt_setup] and [main].  The window is known by its size and
    by the [addstr] calls it refuses; what it displays is not modelled.

    Environment.  The file system is an oracle ([World]) that says, for a
    path, what [os.stat] and what [open(...).readlines()] do at the moment of
    the call.  A change of the file system between two calls is a change of
    [World].  A character of a text is an [ascii]; the code looks at
    characters only to find and strip line endings.

    Exceptions come in two layers.  The first part follows the exceptions
    the [except] clauses of the module name: a path is a string the operating
    system interface accepts, and [os.stat] and [open] fail only with
    exceptions of the [OSError] family.  The part headed "Exceptions that the
    [except] clauses do not name" takes every string: [os.stat] and [open]
    raise [ValueError] on a path with a NUL character, [addstr] on a text
    with one, and that exception leaves [update], [render], [run_viewer] and
    [main].  The two layers are proved to agree on strings without NUL. *)

From Stdlib Require Import ZArith QArith String Ascii List Lia DecimalString.
From stdpp Require Import gmap strings list.
Close Scope Q_scope.
Local Open Scope string_scope.
Local Open Scope list_scope.

(** ** Text of a file as Python's text layer presents it *)

Module Text.

Definition LF : ascii := "010"%char.
Definition CR : ascii := "013"%char.

(** The argument ['\n\r'] of [rstrip]. *)
Definition line_endings : string := String LF (String CR EmptyString).

Fixpoint char_in (c : ascii) (chars : string) : bool :=
  match chars with
  | EmptyString => false
  | String d rest => Ascii.eqb c d || char_in c rest
  end.

(** [str.rstrip(chars)]: drop the longest suffix made of characters of
    [chars]. *)
Fixpoint rstrip (chars s : string) : string :=
  match s with
  | EmptyString => EmptyString
  | String c s' =>
      match rstrip chars s' with
      | EmptyString => if char_in c chars then EmptyString else String c EmptyString
      | r => String c r
      end
  end.

Definition starts_with_LF (s : string) : bool :=
  match s with
  | String c _ => Ascii.eqb c LF
  | EmptyString => false
  end.

(** [open(..., 'r')] with the default [newline=None]: universal newlines.
    On input, each of "\r\n" and "\r" is handed to the program as "\n". *)
Fixpoint universal_newlines (raw : string) : string :=
  match raw with
  | EmptyString => EmptyString
  | String c raw' =>
      if Ascii.eqb c CR then
        if starts_with_LF raw' then universal_newlines raw'
        else String LF (universal_newlines raw')
      else String c (universal_newlines raw')
  end.

(** [f.readlines()] on the translated text: cut after every "\n", the
    terminator stays on its line, a last line without terminator is kept. *)
Fixpoint readlines (text : string) : list string :=
  match text with
  | EmptyString => []
  | String c text' =>
      if Ascii.eqb c LF then String LF EmptyString :: readlines text'
      else match readlines text' with
           | [] => [String c EmptyString]
           | l :: ls => String c l :: ls
           end
  end.

End Text.

(** ** Python values used by the module *)

(** Truth value of a list ([if lines], [if self._content]). *)
Definition truthy {A} (l : list A) : bool :=
  match l with [] => false | _ :: _ => true end.

(** [l[i:]] with Python's treatment of a negative or too large index. *)
Definition slice_from {A} (l : list A) (i : Z) : list A :=
  let len := Z.of_nat (length l) in
  let start := if (i <? 0)%Z then Z.max (len + i) 0 else Z.min i len in
  drop (Z.to_nat start) l.

(** ** Exceptions *)

(** The exception classes that [os.stat], [open] and [readlines] raise on a
    path the operating system interface accepts.  [OSError] stands for an
    instance of the base class itself or of a subclass not listed.  The
    [ValueError] of a path that interface refuses is in [py_exn], with the
    program on every string. *)
Inductive exn : Type :=
  | FileNotFoundError
  | PermissionError
  | IsADirectoryError
  | OSError.

Definition exn_eqb (a b : exn) : bool :=
  match a, b with
  | FileNotFoundError, FileNotFoundError
  | PermissionError, PermissionError
  | IsADirectoryError, IsADirectoryError
  | OSError, OSError => true
  | _, _ => false
  end.

(** [isinstance(e, cls)]: every class here derives from [OSError]. *)
Definition isinstance (e cls : exn) : bool :=
  exn_eqb e cls || exn_eqb cls OSError.

(** Does an [except (c1, c2, ...)] clause take the exception? *)
Definition catches (classes : list exn) (e : exn) : bool :=
  existsb (isinstance e) classes.

Inductive result (A : Type) : Type :=
  | Ret (a : A)
  | Raise (e : exn).
Arguments Ret {A} a.
Arguments Raise {A} e.

Definition bind {A B} (m : result A) (k : A -> result B) : result B :=
  match m with
  | Ret a => k a
  | Raise e => Raise e
  end.

#[global] Instance result_bind : MBind result := fun A B k m => bind m k.

(** [try: body except classes: handler]. *)
Definition try_except {A} (body : result A) (classes : list exn)
    (handler : result A) : result A :=
  match body with
  | Ret a => Ret a
  | Raise e => if catches classes e then handler else Raise e
  end.

(** ** The file system seen from the program *)

Record stat_result : Type := { st_mtime : Q; st_size : Z }.

(** [st_mtime] is a finite float that the program only compares with [==]; it
    is represented by its numeric value. *)
Record World : Type := {
  stat_of : string -> exn + stat_result;
  text_of : string -> exn + string
}.

Definition os_stat (w : World) (path : string) : result stat_result :=
  match stat_of w path with
  | inl e => Raise e
  | inr st => Ret st
  end.

(** [with open(filepath, 'r', encoding='utf-8', errors='replace') as f:
    f.readlines()].  [text_of] gives the decoded characters of the file (a
    malformed byte is already the replacement character), or the exception
    that [open] or the read raises. *)
Definition open_readlines (w : World) (path : string) : result (list string) :=
  match text_of w path with
  | inl e => Raise e
  | inr raw => Ret (Text.readlines (Text.universal_newlines raw))
  end.

(** ** [read_last_n_lines] and [clamp] *)

Definition read_last_n_lines (w : World) (filepath : string) (n : Z)
    : result (list string) :=
  try_except
    (f_lines ← open_readlines w filepath;
     let lines := map (Text.rstrip Text.line_endings) f_lines in
     Ret (if truthy lines then slice_from lines (- n) else []))
    [FileNotFoundError; PermissionError; OSError]
    (Ret []).

Definition clamp (value min_val max_val : Z) : Z :=
  Z.max min_val (Z.min value max_val).

(** ** List objects

    A Python list is an object: two names may denote the same list, and a
    method such as [append] changes it for both.  The cached lines of a tile
    and the lists handed to callers live in a store of list objects, and a
    tile holds a reference into it. *)

Abbreviation loc := positive.
Abbreviation heap := (gmap positive (list string)).

(** A new list object (a list display, a slice, [list.copy()]). *)
Definition alloc (v : list string) (h : heap) : loc * heap :=
  let l := fresh (dom h) in (l, <[l := v]> h).

Definition deref (h : heap) (l : loc) : list string :=
  default [] (h !! l).

(** What a caller can do to a list it holds. *)
Inductive list_op : Type :=
  | Append (x : string)            (* l.append(x) *)
  | Remove (i : nat)               (* del l[i] *)
  | Replace (i : nat) (x : string) (* l[i] = x *)
  | Clear.                         (* l.clear() *)

(** An index out of range raises [IndexError] and leaves the list as it is. *)
Definition apply_op (op : list_op) (v : list string) : list string :=
  match op with
  | Append x => v ++ [x]
  | Remove i => take i v ++ drop (S i) v
  | Replace i x => <[i := x]> v
  | Clear => []
  end.

Definition mutate (l : loc) (op : list_op) (h : heap) : heap :=
  match h !! l with
  | Some v => <[l := apply_op op v]> h
  | None => h
  end.

Definition mutate_all (l : loc) (ops : list list_op) (h : heap) : heap :=
  foldl (fun h' op => mutate l op h') h ops.

(** ** [class TailTile] *)

Record TailTile : Type := {
  filepath : string;
  lines : Z;
  _content : loc;
  _last_stat : Q * Z
}.

(** The value [(0.0, 0)] of [__init__] and [(0, 0)] of [adjust_lines] and of
    the refresh key: Python's [0.0 == 0], both are the number zero. *)
Definition sentinel : Q * Z := (0%Q, 0%Z).

(** [==] on the pairs (modification time, size). *)
Definition stat_eqb (a b : Q * Z) : bool :=
  Qeq_bool (fst a) (fst b) && (snd a =? snd b)%Z.

Definition default_lines : Z := 10.

Definition TailTile_init (path : string) (n : Z) (h : heap) : TailTile * heap :=
  let '(l, h') := alloc [] h in
  ({| filepath := path; lines := n; _content := l; _last_stat := sentinel |}, h').

Definition set_content (self : TailTile) (l : loc) : TailTile :=
  {| filepath := filepath self; lines := lines self;
     _content := l; _last_stat := _last_stat self |}.

Definition set_last_stat (self : TailTile) (s : Q * Z) : TailTile :=
  {| filepath := filepath self; lines := lines self;
     _content := _content self; _last_stat := s |}.

Definition set_lines (self : TailTile) (n : Z) : TailTile :=
  {| filepath := filepath self; lines := n;
     _content := _content self; _last_stat := _last_stat self |}.

(** The lines a tile caches, read through its reference. *)
Definition content (h : heap) (self : TailTile) : list string :=
  deref h (_content self).

Definition update (w : World) (self : TailTile) (h : heap)
    : result (bool * TailTile * heap) :=
  match os_stat w (filepath self) with
  | Raise e =>
      if catches [OSError] e then
        if truthy (content h self) then
          let '(l, h') := alloc [] h in
          Ret (true, set_content self l, h')
        else Ret (false, self, h)
      else Raise e
  | Ret stat =>
      let current := (st_mtime stat, st_size stat) in
      if negb (stat_eqb current (_last_stat self)) then
        let self1 := set_last_stat self current in
        new_lines ← read_last_n_lines w (filepath self1) (lines self1);
        let '(l, h') := alloc new_lines h in
        Ret (true, set_content self1 l, h')
      else Ret (false, self, h)
  end.

(** [self._content.copy()]: a new list object with the same elements. *)
Definition get_content (self : TailTile) (h : heap) : loc * heap :=
  alloc (content h self) h.

(** ** [class TileRenderer] (the part that is not drawing) *)

Record TileRenderer : Type := {
  tiles : list TailTile;
  rows : Z;
  cols : Z;
  line_count : Z
}.

Definition TileRenderer_init (ts : list TailTile) (layout : Z * Z) : TileRenderer :=
  {| tiles := ts; rows := fst layout; cols := snd layout;
     line_count := match ts with t :: _ => lines t | [] => 10 end |}.

Definition adjust_lines (self : TileRenderer) (delta : Z) : TileRenderer :=
  let count := clamp (line_count self + delta) 1 100 in
  {| tiles := map (fun tile => set_last_stat (set_lines tile count) sentinel)
                  (tiles self);
     rows := rows self; cols := cols self; line_count := count |}.

(** ** [run_viewer] *)

(** [[TailTile(fp, initial_lines) for fp in filepaths]]. *)
Fixpoint make_tiles (filepaths : list string) (initial_lines : Z) (h : heap)
    : list TailTile * heap :=
  match filepaths with
  | [] => ([], h)
  | fp :: rest =>
      let '(t, h1) := TailTile_init fp initial_lines h in
      let '(ts, h2) := make_tiles rest initial_lines h1 in
      (t :: ts, h2)
  end.

(** [for tile in tiles: if tile.update(): redraw = True]. *)
Fixpoint poll (w : World) (ts : list TailTile) (h : heap) (redraw : bool)
    : result (bool * list TailTile * heap) :=
  match ts with
  | [] => Ret (redraw, [], h)
  | tile :: rest =>
      '(changed, tile', h1) ← update w tile h;
      '(redraw', rest', h2) ← poll w rest h1 (changed || redraw);
      Ret (redraw', tile' :: rest', h2)
  end.

(** [for tile in tiles: tile._last_stat = (0, 0); tile.update()]. *)
Fixpoint refresh (w : World) (ts : list TailTile) (h : heap)
    : result (list TailTile * heap) :=
  match ts with
  | [] => Ret ([], h)
  | tile :: rest =>
      '(_, tile', h1) ← update w (set_last_stat tile sentinel) h;
      '(rest', h2) ← refresh w rest h1;
      Ret (tile' :: rest', h2)
  end.

Inductive key : Type :=
  | KeyQuit      (* q *)
  | KeyMore      (* + or = *)
  | KeyFewer     (* - or _ *)
  | KeyRefresh   (* r *)
  | KeyResize
  | KeyOther.    (* another key, or none within the wait *)

Record Viewer : Type := {
  renderer : TileRenderer;
  store : heap
}.

Definition with_tiles (r : TileRenderer) (ts : list TailTile) : TileRenderer :=
  {| tiles := ts; rows := rows r; cols := cols r; line_count := line_count r |}.

(** The state in which the loop is entered. *)
Definition viewer_start (w : World) (filepaths : list string) (layout : Z * Z)
    (initial_lines : Z) : result Viewer :=
  let '(ts, h) := make_tiles filepaths initial_lines ∅ in
  let r := TileRenderer_init ts layout in
  '(_, ts', h') ← poll w ts h false;
  Ret {| renderer := with_tiles r ts'; store := h' |}.

(** One turn of [while True]: poll, read a key, act on it.  [None] is
    [break]. *)
Definition viewer_turn (w : World) (k : key) (v : Viewer) : result (option Viewer) :=
  '(_, ts, h) ← poll w (tiles (renderer v)) (store v) false;
  let r := with_tiles (renderer v) ts in
  match k with
  | KeyQuit => Ret None
  | KeyMore => Ret (Some {| renderer := adjust_lines r 1; store := h |})
  | KeyFewer => Ret (Some {| renderer := adjust_lines r (-1); store := h |})
  | KeyRefresh =>
      '(ts', h') ← refresh w ts h;
      Ret (Some {| renderer := with_tiles r ts'; store := h' |})
  | KeyResize | KeyOther => Ret (Some {| renderer := r; store := h |})
  end.

(** ** The specification's vocabulary *)

Module Spec.

(** The newline-delimited records of a text, as the specification words
    them and not as the code computes them: the text is read once from the
    left, a record ends at a newline ("\n", "\r\n" or "\r", the newlines of
    Python's text files), the newline is not part of the record, and what
    follows the last newline is a record when it is not empty. *)
Fixpoint records_from (cur rest : string) : list string :=
  match rest with
  | EmptyString =>
      match cur with
      | EmptyString => []
      | _ => [cur]
      end
  | String c rest' =>
      if Ascii.eqb c Text.LF then cur :: records_from EmptyString rest'
      else if Ascii.eqb c Text.CR then
        if Text.starts_with_LF rest' then records_from cur rest'
        else cur :: records_from EmptyString rest'
      else records_from (cur +:+ String c EmptyString) rest'
  end.

Definition newline_records (raw : string) : list string :=
  records_from EmptyString raw.

(** The last [n] elements of a list, all of them when there are fewer. *)
Definition last_n {A} (n : nat) (l : list A) : list A :=
  reverse (take n (reverse l)).

(** A line carries no trailing line-ending character. *)
Fixpoint ends_with_line_ending (s : string) : bool :=
  match s with
  | EmptyString => false
  | String c EmptyString => Text.char_in c Text.line_endings
  | String _ s' => ends_with_line_ending s'
  end.

End Spec.

(** ** Auxiliary notions for the proofs *)

(** The lines [read_last_n_lines] builds before it slices. *)
Definition lines_of_text (raw : string) : list string :=
  map (Text.rstrip Text.line_endings) (Text.readlines (Text.universal_newlines raw)).

(** Put [cur] in front of the first line of [ls]. *)
Definition prepend (cur : string) (ls : list string) : list string :=
  match ls with
  | [] => match cur with EmptyString => [] | _ => [cur] end
  | l :: ls' => (cur +:+ l) :: ls'
  end.

(** ** Predicates on states *)

(** The tile's reference denotes a list object of the store. *)
Definition wf_tile (h : heap) (t : TailTile) : Prop :=
  is_Some (h !! _content t).

(** The bound of the data model: no more cached lines than requested. *)
Definition tile_inv (h : heap) (t : TailTile) : Prop :=
  (Z.of_nat (length (content h t)) <= lines t)%Z.

(** What can be observed of a tile: its attributes and its cached lines,
    whatever the reference that holds them. *)
Definition view (h : heap) (t : TailTile) : string * Z * (Q * Z) * list string :=
  (filepath t, lines t, _last_stat t, content h t).

(** The four ways [update] can go. *)
Inductive update_branch (w : World) (self : TailTile) (h : heap)
    : bool -> TailTile -> heap -> Prop :=
  | UpdCleared e :
      stat_of w (filepath self) = inl e ->
      content h self <> [] ->
      update_branch w self h true
        (set_content self (fst (alloc [] h))) (snd (alloc [] h))
  | UpdStillAbsent e :
      stat_of w (filepath self) = inl e ->
      content h self = [] ->
      update_branch w self h false self h
  | UpdUnchanged st :
      stat_of w (filepath self) = inr st ->
      stat_eqb (st_mtime st, st_size st) (_last_stat self) = true ->
      update_branch w self h false self h
  | UpdReread st ls :
      stat_of w (filepath self) = inr st ->
      stat_eqb (st_mtime st, st_size st) (_last_stat self) = false ->
      read_last_n_lines w (filepath self) (lines self) = Ret ls ->
      update_branch w self h true
        (set_content (set_last_stat self (st_mtime st, st_size st))
                     (fst (alloc ls h)))
        (snd (alloc ls h)).

(** Each tile leaves the loop as its own [update] leaves it. *)
Definition polled_alone (w : World) (h h' : heap) (t t' : TailTile) : Prop :=
  exists changed t1 h1,
    update w t h = Ret (changed, t1, h1) /\ view h' t' = view h1 t1.

(** ** Sample file systems *)

Module Sample.

Definition nl : string := String Text.LF EmptyString.
Definition crlf : string := String Text.CR (String Text.LF EmptyString).

Definition a_log : string := "/tmp/a.log".
Definition b_log : string := "/tmp/b.log".

(** [/tmp/a.log] holds the three lines x, y, z; nothing else exists. *)
Definition three_lines : string := "x" +:+ nl +:+ "y" +:+ crlf +:+ "z" +:+ nl.

Definition fs_present : World := {|
  stat_of := fun p =>
    if String.eqb p a_log then inr {| st_mtime := 1700000000.5%Q; st_size := 7 |}
    else inl FileNotFoundError;
  text_of := fun p =>
    if String.eqb p a_log then inr three_lines else inl FileNotFoundError
|}.

(** The same file system after [/tmp/a.log] was removed. *)
Definition fs_absent : World := {|
  stat_of := fun _ => inl FileNotFoundError;
  text_of := fun _ => inl FileNotFoundError
|}.

(** A tile on [/tmp/a.log] just built, asking for ten lines. *)
Definition tile0 : TailTile := fst (TailTile_init a_log 10 ∅).
Definition heap0 : heap := snd (TailTile_init a_log 10 ∅).

(** The same tile after its first [update]: it caches x, y, z. *)
Definition loaded : TailTile * heap :=
  match update fs_present tile0 heap0 with
  | Ret (_, t, h) => (t, h)
  | Raise _ => (tile0, heap0)
  end.
Definition tile1 : TailTile := fst loaded.
Definition heap1 : heap := snd loaded.

(** A renderer on that tile, and the tile after [adjust_lines(-8)]. *)
Definition renderer1 : TileRenderer := TileRenderer_init [tile1] (1, 1)%Z.
Definition tile1_two_lines : TailTile :=
  set_last_stat (set_lines tile1 2) sentinel.

(** What a caller might do to the list [get_content] gave it. *)
Definition scribble : list list_op :=
  [Append "w"; Remove 0; Replace 0 "q"; Clear; Append "v"].

End Sample.

(** * The rest of the module: drawing, the loop, the prompts *)

(** ** Text on the screen *)

(** The characters the renderer writes: those of paths and lines, and the
    box-drawing and ellipsis characters of the borders. *)
Inductive uchar : Type :=
  | Chr (a : ascii)
  | BoxH       (* horizontal rule *)
  | BoxV       (* vertical rule *)
  | BoxTL | BoxTR | BoxBL | BoxBR
  | Ellipsis.  (* the one-character ellipsis *)

Abbreviation text := (list uchar).

Definition text_of_string (s : string) : text :=
  Chr <$> list_ascii_of_string s.

(** [str(n)] and [{n}] in an f-string. *)
Definition str_of_int (n : Z) : text :=
  text_of_string (NilZero.string_of_int (Z.to_int n)).

(** [s[:k]] with Python's treatment of a negative or too large index. *)
Definition slice_to {A} (l : list A) (k : Z) : list A :=
  let len := Z.of_nat (length l) in
  let stop := if (k <? 0)%Z then Z.max (len + k) 0 else Z.min k len in
  take (Z.to_nat stop) l.

(** [c * n]: nothing for [n <= 0]. *)
Definition repeat_char (c : uchar) (n : Z) : text :=
  replicate (Z.to_nat n) c.

Definition len {A} (l : list A) : Z := Z.of_nat (length l).

(** [os.path.basename]: what follows the last slash. *)
Fixpoint basename (p : string) : string :=
  match p with
  | EmptyString => EmptyString
  | String c rest =>
      if Text.char_in "/"%char rest then basename rest
      else if Ascii.eqb c "/"%char then rest
      else p
  end.

Inductive attr : Type := A_NORMAL | A_DIM | A_REVERSE.

(** What the renderer asks of [stdscr]. *)
Inductive draw_op : Type :=
  | OpClear
  | OpAddstr (y x : Z) (s : text) (a : attr)
  | OpRefresh.

(** The window at the time of a [render]: its size, and the [addstr] calls
    on which curses raises [curses.error]. *)
Record Screen : Type := {
  getmaxyx : Z * Z;
  addstr_raises : Z -> Z -> text -> bool
}.

Definition op_raises (scr : Screen) (op : draw_op) : bool :=
  match op with
  | OpAddstr y x s _ => addstr_raises scr y x s
  | _ => false
  end.

(** A run of calls inside [try: ... except curses.error: pass]: the calls
    are made in order up to the first that raises, that one included.  The
    flag says that none raised.  The calls raise [curses.error] or nothing
    here; the [ValueError] of a text with a NUL character, which this [try]
    does not take, is followed by [py_attempt]. *)
Fixpoint attempt (scr : Screen) (calls : list draw_op) : list draw_op * bool :=
  match calls with
  | [] => ([], true)
  | c :: rest =>
      if op_raises scr c then ([c], false)
      else let '(made, ok) := attempt scr rest in (c :: made, ok)
  end.

(** *** [_draw_tile] *)

(** The header with the file name. *)
Definition tile_header (path : string) (w idx : Z) : text :=
  let name := text_of_string (basename path) in
  let name :=
    if (w - 6 <? len name)%Z then slice_to name (w - 9) ++ text_of_string "..."
    else name in
  let header :=
    [BoxH; Chr " "] ++ str_of_int (idx + 1) ++ [Chr ":"] ++ name ++ [Chr " "] in
  let header :=
    [BoxTL] ++ header ++ repeat_char BoxH (w - len header - 2) ++ [BoxTR] in
  slice_to header w.

(** The path shown on the second row. *)
Definition tile_path (path : string) (w : Z) : text :=
  let p := text_of_string path in
  let p := if (w - 4 <? len p)%Z then [Ellipsis] ++ slice_from p (- (w - 5)) else p in
  slice_to ([Chr " "] ++ p) (w - 3).

(** The calls before [tile.get_content()]. *)
Definition tile_head_calls (path : string) (y x w idx : Z) : list draw_op :=
  [ OpAddstr y x (tile_header path w idx) A_DIM;
    OpAddstr (y + 1) x [BoxV] A_DIM;
    OpAddstr (y + 1) (x + 1) (tile_path path w) A_DIM;
    OpAddstr (y + 1) (x + w - 1) [BoxV] A_DIM ].

(** The body of [for row in range(h - 3)], with its [break]. *)
Fixpoint tile_row_calls (content : list string) (y x h w : Z) (rows : list Z)
    : list draw_op :=
  match rows with
  | [] => []
  | row :: rest =>
      let line_y := (y + 2 + row)%Z in
      if (y + h - 1 <=? line_y)%Z then []
      else
        [OpAddstr line_y x [BoxV] A_DIM]
        ++ (if (row <? len content)%Z then
              match content !! Z.to_nat row with
              | Some line =>
                  [OpAddstr line_y (x + 1)
                     (slice_to ([Chr " "] ++ text_of_string line) (w - 3)) A_NORMAL]
              | None => []
              end
            else [])
        ++ [OpAddstr line_y (x + w - 1) [BoxV] A_DIM]
        ++ tile_row_calls content y x h w rest
  end.

Definition tile_footer (w : Z) : text :=
  [BoxBL] ++ repeat_char BoxH (w - 2) ++ [BoxBR].

(** The calls after [tile.get_content()]. *)
Definition tile_body_calls (content : list string) (y x h w : Z) : list draw_op :=
  tile_row_calls content y x h w (seqZ 0 (h - 3))
  ++ [OpAddstr (y + h - 1) x (tile_footer w) A_DIM].

(** The calls made, and the store: [get_content] is reached, and makes its
    copy, only when the four calls before it went through. *)
Definition _draw_tile (scr : Screen) (tile : TailTile) (y x h w idx : Z)
    (hp : heap) : list draw_op * heap :=
  let '(made, ok) := attempt scr (tile_head_calls (filepath tile) y x w idx) in
  if ok then
    let '(r, hp1) := get_content tile hp in
    (made ++ fst (attempt scr (tile_body_calls (deref hp1 r) y x h w)), hp1)
  else (made, hp).

(** *** [_draw_status] *)

Definition status_text (count : Z) : text :=
  text_of_string " tail_tiles " ++ [BoxV] ++ text_of_string " lines: "
  ++ str_of_int count ++ [Chr " "; BoxV] ++ text_of_string " +/- adjust "
  ++ [BoxV] ++ text_of_string " r refresh " ++ [BoxV]
  ++ text_of_string " q quit ".

Definition status_calls (count h w : Z) : list draw_op :=
  let status := status_text count in
  [OpAddstr (h - 1) 0 (slice_to status (w - 1)) A_REVERSE]
  ++ (if (len status <? w)%Z then
        [OpAddstr (h - 1) (len status)
           (repeat_char (Chr " ") (w - len status - 1)) A_REVERSE]
      else []).

Definition _draw_status (scr : Screen) (self : TileRenderer) (h w : Z)
    : list draw_op :=
  fst (attempt scr (status_calls (line_count self) h w)).

(** *** [render] *)

(** The rectangle [(y, x, h, w)] of tile [i]. *)
Definition tile_rect (rows cols h w i : Z) : Z * Z * Z * Z :=
  let tile_h := ((h - 1) / rows)%Z in
  let tile_w := (w / cols)%Z in
  let row := (i / cols)%Z in
  let col := (i mod cols)%Z in
  ((row * tile_h)%Z, (col * tile_w)%Z, tile_h, tile_w).

(** [for i, tile in enumerate(self.tiles)], from index [i] on. *)
Fixpoint draw_tiles (scr : Screen) (rows cols h w : Z) (ts : list TailTile)
    (i : Z) (hp : heap) : list draw_op * heap :=
  match ts with
  | [] => ([], hp)
  | tile :: rest =>
      let '(y, x, th, tw) := tile_rect rows cols h w i in
      let '(ops, hp1) := _draw_tile scr tile y x th tw i hp in
      let '(ops', hp2) := draw_tiles scr rows cols h w rest (i + 1) hp1 in
      (ops ++ ops', hp2)
  end.

(** [None] is [ZeroDivisionError], raised by [(h - 1) // self.rows] or
    [w // self.cols] before any tile is drawn. *)
Definition render (scr : Screen) (self : TileRenderer) (hp : heap)
    : option (list draw_op * heap) :=
  let '(h, w) := getmaxyx scr in
  if (rows self =? 0)%Z || (cols self =? 0)%Z then None
  else
    let '(ops, hp') := draw_tiles scr (rows self) (cols self) h w (tiles self) 0 hp in
    Some ([OpClear] ++ ops ++ _draw_status scr self h w ++ [OpRefresh], hp').

(** ** The whole loop of [run_viewer] *)

Inductive loop_exn : Type :=
  | LoopOSError (e : exn)
  | ZeroDivisionError.

Inductive outcome (A : Type) : Type :=
  | Fine (a : A)
  | Crash (e : loop_exn).
Arguments Fine {A} a.
Arguments Crash {A} e.

(** [if redraw: renderer.render(); redraw = False]. *)
Definition render_if (redraw : bool) (scr : Screen) (r : TileRenderer) (hp : heap)
    : outcome (option Viewer * list draw_op) :=
  if redraw then
    match render scr r hp with
    | None => Crash ZeroDivisionError
    | Some (ops, hp') => Fine (Some {| renderer := r; store := hp' |}, ops)
    end
  else Fine (Some {| renderer := r; store := hp |}, []).

(** One turn of [while True] with its drawing.  [redraw] is the flag at the
    top of the turn; the turn leaves it [False].  The result is the state
    after the turn ([None] after [break]) and the calls made on the screen. *)
Definition loop_turn (w : World) (scr : Screen) (k : key) (v : Viewer)
    (redraw : bool) : outcome (option Viewer * list draw_op) :=
  match poll w (tiles (renderer v)) (store v) redraw with
  | Raise e => Crash (LoopOSError e)
  | Ret (redraw1, ts, hp) =>
      let r := with_tiles (renderer v) ts in
      match k with
      | KeyQuit => Fine (None, [])
      | KeyMore => render_if true scr (adjust_lines r 1) hp
      | KeyFewer => render_if true scr (adjust_lines r (-1)) hp
      | KeyRefresh =>
          match refresh w ts hp with
          | Raise e => Crash (LoopOSError e)
          | Ret (ts', hp') => render_if true scr (with_tiles r ts') hp'
          end
      | KeyResize => render_if true scr r hp
      | KeyOther => render_if redraw1 scr r hp
      end
  end.



(** ** [prompt_setup] *)

Definition LAYOUTS : gmap string (Z * Z) :=
  <["1" := (1, 1)%Z]> (<["2" := (2, 1)%Z]> (<["3" := (1, 2)%Z]>
  (<["4" := (2, 2)%Z]> ∅))).

(** The string functions of Python the prompts rely on.  [int_of] is
    [int(s)], [None] when it raises [ValueError] (which it does on some
    strings that [str.isdigit] accepts). *)
Record StrLib : Type := {
  strip : string -> string;
  isdigit : string -> bool;
  int_of : string -> option Z;
  expanduser : string -> string
}.

(** What the user types: a line, or Ctrl-C.  The end of the list is the end
    of standard input. *)
Inductive stdin_event : Type :=
  | Line (s : string)
  | CtrlC.

Inductive input_result : Type :=
  | Got (s : string) (rest : list stdin_event)
  | EOFError
  | KeyboardInterrupt.

Definition input (stdin : list stdin_event) : input_result :=
  match stdin with
  | [] => EOFError
  | Line s :: rest => Got s rest
  | CtrlC :: _ => KeyboardInterrupt
  end.

Definition is_empty (s : string) : bool :=
  match s with EmptyString => true | _ => false end.

Inductive paths_result : Type :=
  | PathsRead (paths : list string) (rest : list stdin_event)
  | NoFiles                 (* [return None] on a blank first path *)
  | PathsInterrupted.       (* [EOFError] or [KeyboardInterrupt] *)

(** [for i in range(max_files)], with [n] turns left. *)
Fixpoint read_paths (lib : StrLib) (n : nat) (paths : list string)
    (stdin : list stdin_event) : paths_result :=
  match n with
  | O => PathsRead paths stdin
  | S n' =>
      match input stdin with
      | Got s rest =>
          let path := strip lib s in
          if is_empty path then
            if truthy paths then PathsRead paths rest else NoFiles
          else read_paths lib n' (paths ++ [expanduser lib path]) rest
      | EOFError | KeyboardInterrupt => PathsInterrupted
      end
  end.

Inductive setup_outcome : Type :=
  | SetupReturn (r : option (list string * (Z * Z) * Z))
  | SetupValueError.   (* [int(lines_input)] raised; nothing catches it *)

Definition prompt_setup (lib : StrLib) (stdin : list stdin_event) : setup_outcome :=
  match input stdin with
  | Got s rest =>
      let choice := strip lib s in
      let layout :=
        match LAYOUTS !! choice with
        | Some l => l
        | None => default (1, 1)%Z (LAYOUTS !! "1")
        end in
      let max_files := (fst layout * snd layout)%Z in
      match read_paths lib (Z.to_nat max_files) [] rest with
      | PathsRead paths rest' =>
          match input rest' with
          | Got s' _ =>
              let lines_input := strip lib s' in
              if isdigit lib lines_input then
                match int_of lib lines_input with
                | Some n => SetupReturn (Some (paths, layout, clamp n 1 100))
                | None => SetupValueError
                end
              else SetupReturn (Some (paths, layout, clamp 10 1 100))
          | EOFError | KeyboardInterrupt => SetupReturn None
          end
      | NoFiles => SetupReturn None
      | PathsInterrupted => SetupReturn None
      end
  | EOFError | KeyboardInterrupt => SetupReturn None
  end.

(** ** Predicates for the added properties *)

(** An [addstr] call starts inside the rectangle [(y, x, h, w)] and its
    text has no more characters than there are columns from its first one to
    the right edge of the rectangle.  How many columns a character takes on
    the terminal (a TAB, a control or a wide character takes several) is not
    modelled: the bound is on [len(s)], the quantity the code cuts by. *)
Definition op_inside (y x h w : Z) (op : draw_op) : Prop :=
  match op with
  | OpAddstr cy cx s _ =>
      (y <= cy < y + h)%Z /\ (x <= cx)%Z /\ (cx + len s <= x + w)%Z
  | _ => True
  end.

(** The lines of file content among some calls: the calls with the normal
    attribute, as (row, column, text). *)
Fixpoint shown_lines (ops : list draw_op) : list (Z * Z * text) :=
  match ops with
  | [] => []
  | OpAddstr y x s A_NORMAL :: rest => (y, x, s) :: shown_lines rest
  | _ :: rest => shown_lines rest
  end.

(** How [_draw_tile] writes cached line [p.2] on row [p.1] of the body. *)
Definition shown_line (y x w : Z) (p : Z * string) : Z * Z * text :=
  ((y + 2 + fst p)%Z, (x + 1)%Z,
   slice_to ([Chr " "] ++ text_of_string (snd p)) (w - 3)).

(** Two rectangles [(y, x, h, w)] share no cell. *)
Definition rects_apart (a b : Z * Z * Z * Z) : Prop :=
  let '(ya, xa, ha, wa) := a in
  let '(yb, xb, hb, wb) := b in
  (ya + ha <= yb \/ yb + hb <= ya \/ xa + wa <= xb \/ xb + wb <= xa)%Z.


(** What [refresh] leaves of a tile, in the file system [w]. *)
Definition refreshed (w : World) (hp' : heap) (t t' : TailTile) : Prop :=
  filepath t' = filepath t
  /\ lines t' = lines t
  /\ (forall e, stat_of w (filepath t) = inl e -> content hp' t' = [])
  /\ (forall st,
        stat_of w (filepath t) = inr st ->
        stat_eqb (st_mtime st, st_size st) sentinel = false ->
        read_last_n_lines w (filepath t) (lines t) = Ret (content hp' t')
        /\ _last_stat t' = (st_mtime st, st_size st)).

(** ** Samples for the added properties *)

Module Demo.

Definition is_space (c : ascii) : bool :=
  Text.char_in c (String " " (String "009" (String "010" (String "013" EmptyString)))).

Fixpoint lstrip (s : string) : string :=
  match s with
  | String c rest => if is_space c then lstrip rest else s
  | EmptyString => EmptyString
  end.

Definition digit_of (c : ascii) : option Z :=
  let n := Z.of_nat (nat_of_ascii c) in
  if ((48 <=? n) && (n <=? 57))%Z then Some (n - 48)%Z else None.

Fixpoint digits_value (s : string) (acc : Z) : option Z :=
  match s with
  | EmptyString => Some acc
  | String c rest =>
      match digit_of c with
      | Some d => digits_value rest (10 * acc + d)%Z
      | None => None
      end
  end.

(** The string functions on plain ASCII input. *)
Definition ascii_lib : StrLib := {|
  strip := fun s =>
    Text.rstrip (String " " (String "009" (String "010" (String "013" EmptyString))))
                (lstrip s);
  isdigit := fun s =>
    negb (is_empty s)
    && match digits_value s 0 with Some _ => true | None => false end;
  int_of := fun s => digits_value s 0;
  expanduser := fun s => s
|}.

(** [/tmp/a.log] as in [Sample.fs_present], but [open] is refused. *)
Definition fs_unreadable : World := {|
  stat_of := stat_of Sample.fs_present;
  text_of := fun _ => inl PermissionError
|}.

(** A window of 24 rows and 80 columns on which every call goes through. *)
Definition screen_24x80 : Screen := {|
  getmaxyx := (24, 80)%Z;
  addstr_raises := fun _ _ _ => false
|}.

(** A window on which every [addstr] raises. *)
Definition screen_broken : Screen := {|
  getmaxyx := (24, 80)%Z;
  addstr_raises := fun _ _ _ => true
|}.

(** The user picks layout 3, names two files and asks for 250 lines. *)
Definition typed : list stdin_event :=
  [Line " 3 "; Line "/tmp/a.log"; Line "/tmp/b.log"; Line "250"].

End Demo.

(** * Exceptions that the [except] clauses do not name

    Before the operating system or curses is asked, Python converts the
    string arguments of [os.stat], [open] and [addstr].  A string with an
    embedded NUL character makes that conversion raise [ValueError], which is
    neither an [OSError] nor a [curses.error].  The definitions above are the
    program on strings without NUL; the ones below are the program on every
    string, written from the same source lines.  [ValueError] stands for an
    instance of the class or of a subclass: a character that cannot be
    encoded for the file system or for the window makes the same conversion
    fail with [UnicodeEncodeError], which is one; such characters are
    outside [ascii]. *)

Inductive py_exn : Type :=
  | PyOSError (e : exn)
  | ValueError
  | PyZeroDivisionError.

Inductive py_result (A : Type) : Type :=
  | Returns (a : A)
  | Raises (e : py_exn).
Arguments Returns {A} a.
Arguments Raises {A} e.

Definition NUL : ascii := "000"%char.

Definition has_nul (s : string) : bool := Text.char_in NUL s.

(** [os.stat(path)]. *)
Definition py_os_stat (w : World) (path : string) : py_result stat_result :=
  if has_nul path then Raises ValueError
  else match stat_of w path with
       | inl e => Raises (PyOSError e)
       | inr st => Returns st
       end.

(** [open(filepath, 'r', ...)] and [f.readlines()]. *)
Definition py_open_readlines (w : World) (path : string)
    : py_result (list string) :=
  if has_nul path then Raises ValueError
  else match text_of w path with
       | inl e => Raises (PyOSError e)
       | inr raw => Returns (Text.readlines (Text.universal_newlines raw))
       end.

(** An [except] clause that lists classes of the [OSError] family takes
    nothing else. *)
Definition py_catches (classes : list exn) (e : py_exn) : bool :=
  match e with
  | PyOSError e' => catches classes e'
  | ValueError | PyZeroDivisionError => false
  end.

Definition py_try_except {A} (body : py_result A) (classes : list exn)
    (handler : py_result A) : py_result A :=
  match body with
  | Returns a => Returns a
  | Raises e => if py_catches classes e then handler else Raises e
  end.

Definition py_read_last_n_lines (w : World) (filepath : string) (n : Z)
    : py_result (list string) :=
  py_try_except
    (match py_open_readlines w filepath with
     | Raises e => Raises e
     | Returns f_lines =>
         let lines := map (Text.rstrip Text.line_endings) f_lines in
         Returns (if truthy lines then slice_from lines (- n) else [])
     end)
    [FileNotFoundError; PermissionError; OSError]
    (Returns []).

Definition py_update (w : World) (self : TailTile) (h : heap)
    : py_result (bool * TailTile * heap) :=
  match py_os_stat w (filepath self) with
  | Raises e =>
      if py_catches [OSError] e then
        if truthy (content h self) then
          let '(l, h') := alloc [] h in
          Returns (true, set_content self l, h')
        else Returns (false, self, h)
      else Raises e
  | Returns stat =>
      let current := (st_mtime stat, st_size stat) in
      if negb (stat_eqb current (_last_stat self)) then
        let self1 := set_last_stat self current in
        match py_read_last_n_lines w (filepath self1) (lines self1) with
        | Raises e => Raises e
        | Returns new_lines =>
            let '(l, h') := alloc new_lines h in
            Returns (true, set_content self1 l, h')
        end
      else Returns (false, self, h)
  end.

(** [for tile in tiles: if tile.update(): redraw = True]. *)
Fixpoint py_poll (w : World) (ts : list TailTile) (h : heap) (redraw : bool)
    : py_result (bool * list TailTile * heap) :=
  match ts with
  | [] => Returns (redraw, [], h)
  | tile :: rest =>
      match py_update w tile h with
      | Raises e => Raises e
      | Returns (changed, tile', h1) =>
          match py_poll w rest h1 (changed || redraw) with
          | Raises e => Raises e
          | Returns (redraw', rest', h2) => Returns (redraw', tile' :: rest', h2)
          end
      end
  end.

(** [for tile in tiles: tile._last_stat = (0, 0); tile.update()]. *)
Fixpoint py_refresh (w : World) (ts : list TailTile) (h : heap)
    : py_result (list TailTile * heap) :=
  match ts with
  | [] => Returns ([], h)
  | tile :: rest =>
      match py_update w (set_last_stat tile sentinel) h with
      | Raises e => Raises e
      | Returns (_, tile', h1) =>
          match py_refresh w rest h1 with
          | Raises e => Raises e
          | Returns (rest', h2) => Returns (tile' :: rest', h2)
          end
      end
  end.

Definition uchar_is_nul (c : uchar) : bool :=
  match c with
  | Chr a => Ascii.eqb a NUL
  | _ => false
  end.

Definition text_has_nul (s : text) : bool := existsb uchar_is_nul s.

(** [stdscr.addstr(y, x, s, attr)]: the text is converted first. *)
Inductive addstr_outcome : Type :=
  | Written
  | CursesError        (* [curses.error] *)
  | AddstrValueError.  (* [ValueError]: embedded null character *)

Definition addstr (scr : Screen) (op : draw_op) : addstr_outcome :=
  match op with
  | OpAddstr y x s _ =>
      if text_has_nul s then AddstrValueError
      else if addstr_raises scr y x s then CursesError
      else Written
  | _ => Written
  end.

(** How a run of calls inside [try: ... except curses.error: pass] ends. *)
Inductive guarded : Type :=
  | Passed         (* every call was made *)
  | Swallowed      (* a call raised [curses.error] *)
  | Escaped.       (* a call raised [ValueError], which leaves the [try] *)

Fixpoint py_attempt (scr : Screen) (calls : list draw_op)
    : list draw_op * guarded :=
  match calls with
  | [] => ([], Passed)
  | c :: rest =>
      match addstr scr c with
      | Written => let '(made, g) := py_attempt scr rest in (c :: made, g)
      | CursesError => ([c], Swallowed)
      | AddstrValueError => ([c], Escaped)
      end
  end.

(** [_draw_tile]: the calls made, the store, and whether a [ValueError]
    leaves the method. *)
Definition py_draw_tile (scr : Screen) (tile : TailTile) (y x h w idx : Z)
    (hp : heap) : list draw_op * heap * bool :=
  let '(made, g) := py_attempt scr (tile_head_calls (filepath tile) y x w idx) in
  match g with
  | Passed =>
      let '(r, hp1) := get_content tile hp in
      let '(made', g') := py_attempt scr (tile_body_calls (deref hp1 r) y x h w) in
      (made ++ made', hp1, match g' with Escaped => true | _ => false end)
  | Swallowed => (made, hp, false)
  | Escaped => (made, hp, true)
  end.

Definition py_draw_status (scr : Screen) (self : TileRenderer) (h w : Z)
    : list draw_op * bool :=
  let '(made, g) := py_attempt scr (status_calls (line_count self) h w) in
  (made, match g with Escaped => true | _ => false end).

(** [for i, tile in enumerate(self.tiles)], left at the first tile out of
    which an exception comes. *)
Fixpoint py_draw_tiles (scr : Screen) (rows cols h w : Z) (ts : list TailTile)
    (i : Z) (hp : heap) : list draw_op * heap * bool :=
  match ts with
  | [] => ([], hp, false)
  | tile :: rest =>
      let '(y, x, th, tw) := tile_rect rows cols h w i in
      let '(ops, hp1, escaped) := py_draw_tile scr tile y x th tw i hp in
      if escaped then (ops, hp1, true)
      else
        let '(ops', hp2, escaped') :=
          py_draw_tiles scr rows cols h w rest (i + 1) hp1 in
        (ops ++ ops', hp2, escaped')
  end.

Definition py_render (scr : Screen) (self : TileRenderer) (hp : heap)
    : py_result (list draw_op * heap) :=
  let '(h, w) := getmaxyx scr in
  if (rows self =? 0)%Z || (cols self =? 0)%Z then Raises PyZeroDivisionError
  else
    let '(ops, hp', escaped) :=
      py_draw_tiles scr (rows self) (cols self) h w (tiles self) 0 hp in
    if escaped then Raises ValueError
    else
      let '(ops', escaped') := py_draw_status scr self h w in
      if escaped' then Raises ValueError
      else Returns ([OpClear] ++ ops ++ ops' ++ [OpRefresh], hp').

Definition py_render_if (redraw : bool) (scr : Screen) (r : TileRenderer)
    (hp : heap) : py_result (option Viewer * list draw_op) :=
  if redraw then
    match py_render scr r hp with
    | Raises e => Raises e
    | Returns (ops, hp') => Returns (Some {| renderer := r; store := hp' |}, ops)
    end
  else Returns (Some {| renderer := r; store := hp |}, []).

Definition py_loop_turn (w : World) (scr : Screen) (k : key) (v : Viewer)
    (redraw : bool) : py_result (option Viewer * list draw_op) :=
  match py_poll w (tiles (renderer v)) (store v) redraw with
  | Raises e => Raises e
  | Returns (redraw1, ts, hp) =>
      let r := with_tiles (renderer v) ts in
      match k with
      | KeyQuit => Returns (None, [])
      | KeyMore => py_render_if true scr (adjust_lines r 1) hp
      | KeyFewer => py_render_if true scr (adjust_lines r (-1)) hp
      | KeyRefresh =>
          match py_refresh w ts hp with
          | Raises e => Raises e
          | Returns (ts', hp') => py_render_if true scr (with_tiles r ts') hp'
          end
      | KeyResize => py_render_if true scr r hp
      | KeyOther => py_render_if redraw1 scr r hp
      end
  end.

Fixpoint py_run_loop (events : list (World * Screen * key)) (v : Viewer)
    (redraw : bool) : py_result (option Viewer * list draw_op) :=
  match events with
  | [] => Returns (Some v, [])
  | (w, scr, k) :: rest =>
      match py_loop_turn w scr k v redraw with
      | Raises e => Raises e
      | Returns (None, ops) => Returns (None, ops)
      | Returns (Some v', ops) =>
          match py_run_loop rest v' false with
          | Raises e => Raises e
          | Returns (final, ops') => Returns (final, ops ++ ops')
          end
      end
  end.

Definition py_run_viewer (w0 : World) (filepaths : list string)
    (layout : Z * Z) (initial_lines : Z) (events : list (World * Screen * key))
    : py_result (option Viewer * list draw_op) :=
  let '(ts, h) := make_tiles filepaths initial_lines ∅ in
  let r := TileRenderer_init ts layout in
  match py_poll w0 ts h false with
  | Raises e => Raises e
  | Returns (_, ts', h') =>
      py_run_loop events {| renderer := with_tiles r ts'; store := h' |} true
  end.



(** ** Strings without NUL *)

Definition no_nul (s : string) : Prop := has_nul s = false.









(** ** Samples at the edge: a NUL character, a file dated at the epoch *)

Module Edge.



(** [/tmp/a.log] holds one line with a NUL character in it. *)
Definition fs_nul_line : World := {|
  stat_of := stat_of Sample.fs_present;
  text_of := fun p =>
    if String.eqb p Sample.a_log then inr (String "x" (String NUL Sample.nl))
    else inl FileNotFoundError
|}.

(** [/tmp/a.log] is empty and carries the modification time 0: its
    signature is [(0.0, 0)]. *)
Definition fs_epoch : World := {|
  stat_of := fun p =>
    if String.eqb p Sample.a_log then inr {| st_mtime := 0%Q; st_size := 0 |}
    else inl FileNotFoundError;
  text_of := fun p =>
    if String.eqb p Sample.a_log then inr EmptyString
    else inl FileNotFoundError
|}.

End Edge.

(** * Proofs *)

(** ** Lines of a text *)

Lemma char_in_line_endings (c : ascii) :
  Text.char_in c Text.line_endings = Ascii.eqb c Text.LF || Ascii.eqb c Text.CR.
Proof. simpl. by rewrite orb_false_r. Qed.

Lemma rstrip_cons_keep (chars : string) (c : ascii) (s : string) :
  Text.char_in c chars = false ->
  Text.rstrip chars (String c s) = String c (Text.rstrip chars s).
Proof.
  intros Hc. simpl. rewrite Hc. by destruct (Text.rstrip chars s).
Qed.

Lemma rstrip_idem (chars s : string) :
  Text.rstrip chars (Text.rstrip chars s) = Text.rstrip chars s.
Proof.
  induction s as [|c s IH]; [done|].
  simpl. destruct (Text.rstrip chars s) as [|d r] eqn:Hr.
  - destruct (Text.char_in c chars) eqn:Hc; [done|].
    simpl. by rewrite Hc.
  - change (Text.rstrip chars (String c (String d r)) = String c (String d r)).
    cbn [Text.rstrip]. cbn [Text.rstrip] in IH. by rewrite IH.
Qed.

Lemma append_cons (c : ascii) (s t : string) :
  String c s +:+ t = String c (s +:+ t).
Proof. reflexivity. Qed.

Lemma append_empty_r (s : string) : s +:+ EmptyString = s.
Proof. induction s as [|c s IH]; [done | by rewrite append_cons, IH]. Qed.

Lemma append_assoc_char (s : string) (c : ascii) (t : string) :
  (s +:+ String c EmptyString) +:+ t = s +:+ String c t.
Proof. induction s as [|d s IH]; [done | by rewrite !append_cons, IH]. Qed.

Lemma append_char_nonempty (s : string) (c : ascii) :
  s +:+ String c EmptyString <> EmptyString.
Proof. by destruct s. Qed.

Lemma prepend_empty (ls : list string) : prepend EmptyString ls = ls.
Proof. by destruct ls. Qed.

Lemma lines_of_text_LF (raw : string) :
  lines_of_text (String Text.LF raw) = EmptyString :: lines_of_text raw.
Proof. reflexivity. Qed.

Lemma lines_of_text_CR (raw : string) :
  lines_of_text (String Text.CR raw) =
  if Text.starts_with_LF raw then lines_of_text raw
  else EmptyString :: lines_of_text raw.
Proof.
  unfold lines_of_text. cbn [Text.universal_newlines].
  change (Ascii.eqb Text.CR Text.CR) with true. cbv iota.
  by destruct (Text.starts_with_LF raw).
Qed.

Lemma lines_of_text_char (c : ascii) (raw : string) :
  Ascii.eqb c Text.LF = false -> Ascii.eqb c Text.CR = false ->
  lines_of_text (String c raw) =
  match lines_of_text raw with
  | [] => [String c EmptyString]
  | l :: ls => String c l :: ls
  end.
Proof.
  intros HLF HCR. unfold lines_of_text.
  cbn [Text.universal_newlines]. rewrite HCR.
  cbn [Text.readlines]. rewrite HLF.
  assert (Hin : Text.char_in c Text.line_endings = false)
    by (rewrite char_in_line_endings, HLF, HCR; done).
  destruct (Text.readlines (Text.universal_newlines raw)) as [|l ls].
  - simpl. by rewrite HLF, HCR.
  - cbn [map]. by rewrite rstrip_cons_keep.
Qed.

(** The code's pipeline (translate newlines, cut into lines, strip) and the
    one-pass reading of the specification give the same records. *)
Lemma records_from_prepend (raw cur : string) :
  Spec.records_from cur raw = prepend cur (lines_of_text raw).
Proof.
  revert cur. induction raw as [|c raw IH]; intros cur; [by destruct cur|].
  cbn [Spec.records_from].
  destruct (Ascii.eqb c Text.LF) eqn:HLF.
  - apply Ascii.eqb_eq in HLF as ->.
    rewrite lines_of_text_LF, IH, prepend_empty. simpl.
    by rewrite append_empty_r.
  - destruct (Ascii.eqb c Text.CR) eqn:HCR.
    + apply Ascii.eqb_eq in HCR as ->. rewrite lines_of_text_CR.
      destruct (Text.starts_with_LF raw); [apply IH|].
      rewrite IH, prepend_empty. simpl. by rewrite append_empty_r.
    + rewrite IH, lines_of_text_char by done.
      destruct (lines_of_text raw) as [|l ls]; simpl.
      * destruct (cur +:+ String c EmptyString) eqn:Hcur; [|done].
        by apply append_char_nonempty in Hcur.
      * by rewrite append_assoc_char.
Qed.

Lemma lines_of_text_records (raw : string) :
  lines_of_text raw = Spec.newline_records raw.
Proof.
  unfold Spec.newline_records. by rewrite records_from_prepend, prepend_empty.
Qed.

Lemma lines_of_text_nonempty (raw : string) :
  raw <> EmptyString -> lines_of_text raw <> [].
Proof.
  induction raw as [|c raw IH]; [done|]. intros _.
  destruct (Ascii.eqb c Text.LF) eqn:HLF.
  { apply Ascii.eqb_eq in HLF as ->. by rewrite lines_of_text_LF. }
  destruct (Ascii.eqb c Text.CR) eqn:HCR.
  - apply Ascii.eqb_eq in HCR as ->. rewrite lines_of_text_CR.
    destruct raw as [|d raw]; [done|].
    destruct (Text.starts_with_LF (String d raw)); [by apply IH | done].
  - rewrite lines_of_text_char by done. by destruct (lines_of_text raw).
Qed.

Lemma lines_of_text_stripped (raw : string) :
  Forall (fun l => Text.rstrip Text.line_endings l = l) (lines_of_text raw).
Proof.
  unfold lines_of_text. apply Forall_forall. intros l Hl.
  apply list_elem_of_In, in_map_iff in Hl as (l0 & <- & _). apply rstrip_idem.
Qed.

Lemma rstrip_fixed_tail (chars : string) (c : ascii) (s : string) :
  s <> EmptyString ->
  Text.rstrip chars (String c s) = String c s -> Text.rstrip chars s = s.
Proof.
  intros Hs. cbn [Text.rstrip].
  destruct (Text.rstrip chars s) as [|d r].
  - destruct (Text.char_in c chars); [done|]. intros [= Heq]. by subst.
  - by intros [= ->].
Qed.

Lemma rstrip_fixed_no_line_ending (s : string) :
  Text.rstrip Text.line_endings s = s -> Spec.ends_with_line_ending s = false.
Proof.
  induction s as [|c s IH]; [done|].
  destruct s as [|d s].
  - simpl. rewrite orb_false_r.
    by destruct (Ascii.eqb c Text.LF || Ascii.eqb c Text.CR).
  - intros Hfix. change (Spec.ends_with_line_ending (String d s) = false).
    apply IH. by eapply rstrip_fixed_tail.
Qed.

(** ** Slices *)

Lemma slice_from_nil {A} (i : Z) : slice_from (@nil A) i = [].
Proof. unfold slice_from. by rewrite drop_nil. Qed.

Lemma slice_from_neg_last_n {A} (l : list A) (n : Z) :
  (1 <= n)%Z -> slice_from l (- n) = Spec.last_n (Z.to_nat n) l.
Proof.
  intros Hn. unfold slice_from, Spec.last_n.
  rewrite take_reverse, reverse_involutive.
  destruct (Z.ltb_spec (- n) 0) as [_|?]; [|lia].
  f_equal. lia.
Qed.

Lemma slice_from_zero {A} (l : list A) : slice_from l (- 0) = l.
Proof. unfold slice_from. simpl. by rewrite Z.min_l, drop_0 by lia. Qed.

(** ** [read_last_n_lines] *)

Lemma read_last_n_lines_text (w : World) (path raw : string) (n : Z) :
  text_of w path = inr raw ->
  read_last_n_lines w path n = Ret (slice_from (lines_of_text raw) (- n)).
Proof.
  intros Hraw. unfold read_last_n_lines, open_readlines. rewrite Hraw.
  cbn. fold (lines_of_text raw).
  destruct (lines_of_text raw); [by rewrite slice_from_nil | done].
Qed.

Lemma read_last_n_lines_error (w : World) (path : string) (e : exn) (n : Z) :
  text_of w path = inl e -> read_last_n_lines w path n = Ret [].
Proof.
  intros He. unfold read_last_n_lines, open_readlines. rewrite He.
  by destruct e.
Qed.

Lemma read_last_n_lines_total (w : World) (path : string) (n : Z) :
  exists ls, read_last_n_lines w path n = Ret ls.
Proof.
  destruct (text_of w path) as [e|raw] eqn:Ht.
  - exists []. by eapply read_last_n_lines_error.
  - eexists. by apply read_last_n_lines_text.
Qed.

(** C1.  For every path and every integer [n >= 1], [read_last_n_lines]
    returns the last [n] newline-delimited records of the file's text (all of
    them when there are fewer), none of which ends in a line-ending
    character, and it returns the empty list when the path does not exist
    ([open] raises [FileNotFoundError]). *)
Theorem read_last_n_lines_tail (w : World) (path : string) (n : Z) :
  (1 <= n)%Z ->
  (forall raw, text_of w path = inr raw ->
     exists ls,
       read_last_n_lines w path n = Ret ls
       /\ ls = Spec.last_n (Z.to_nat n) (Spec.newline_records raw)
       /\ length ls = Nat.min (Z.to_nat n) (length (Spec.newline_records raw))
       /\ Forall (fun l => Spec.ends_with_line_ending l = false) ls)
  /\ (text_of w path = inl FileNotFoundError ->
      read_last_n_lines w path n = Ret []).
Proof.
  intros Hn. split; [|apply read_last_n_lines_error].
  intros raw Hraw. eexists. split; [by apply read_last_n_lines_text|].
  rewrite slice_from_neg_last_n, lines_of_text_records by done.
  split; [done|]. split.
  - unfold Spec.last_n.
    rewrite length_reverse, length_take, length_reverse. lia.
  - unfold Spec.last_n. rewrite take_reverse, reverse_involutive.
    apply Forall_drop. rewrite <- lines_of_text_records.
    eapply Forall_impl; [apply lines_of_text_stripped|].
    intros l. apply rstrip_fixed_no_line_ending.
Qed.

Lemma read_last_n_lines_tail_witness :
  exists ls,
    read_last_n_lines Sample.fs_present Sample.a_log 2 = Ret ls
    /\ ls = Spec.last_n 2 (Spec.newline_records Sample.three_lines)
    /\ length ls = Nat.min 2 (length (Spec.newline_records Sample.three_lines))
    /\ Forall (fun l => Spec.ends_with_line_ending l = false) ls.
Proof.
  exact (proj1 (read_last_n_lines_tail Sample.fs_present Sample.a_log 2
                  ltac:(lia)) Sample.three_lines eq_refl).
Defined.

Example read_last_n_lines_two :
  read_last_n_lines Sample.fs_present Sample.a_log 2 = Ret ["y"; "z"].
Proof. reflexivity. Qed.

Example read_last_n_lines_missing :
  read_last_n_lines Sample.fs_present Sample.b_log 2 = Ret [].
Proof. reflexivity. Qed.

(** C10.  For an existing, readable file whose text is not empty,
    [read_last_n_lines(path, 0)] returns all the lines of the file, not the
    empty list: the slice [lines[-0:]] is [lines[0:]]. *)
Theorem read_last_n_lines_zero_returns_all (w : World) (path raw : string) :
  text_of w path = inr raw ->
  raw <> EmptyString ->
  read_last_n_lines w path 0 = Ret (Spec.newline_records raw)
  /\ Spec.newline_records raw <> [].
Proof.
  intros Hraw Hne. rewrite <- lines_of_text_records. split.
  - rewrite (read_last_n_lines_text _ _ _ _ Hraw). by rewrite slice_from_zero.
  - by apply lines_of_text_nonempty.
Qed.

Lemma read_last_n_lines_zero_returns_all_witness :
  read_last_n_lines Sample.fs_present Sample.a_log 0
    = Ret (Spec.newline_records Sample.three_lines)
  /\ Spec.newline_records Sample.three_lines <> [].
Proof.
  apply (read_last_n_lines_zero_returns_all Sample.fs_present Sample.a_log
           Sample.three_lines); [reflexivity | discriminate].
Defined.

Example read_last_n_lines_zero :
  read_last_n_lines Sample.fs_present Sample.a_log 0 = Ret ["x"; "y"; "z"].
Proof. reflexivity. Qed.

(** ** [clamp] *)

(** C7.  For all integers [v], [lo], [hi] with [lo <= hi], [clamp v lo hi] is
    [v] when [lo <= v <= hi], [lo] when [v < lo] and [hi] when [v > hi]. *)
Theorem clamp_cases (v lo hi : Z) :
  (lo <= hi)%Z ->
  ((lo <= v <= hi)%Z -> clamp v lo hi = v)
  /\ ((v < lo)%Z -> clamp v lo hi = lo)
  /\ ((v > hi)%Z -> clamp v lo hi = hi).
Proof. unfold clamp. lia. Qed.

Lemma clamp_cases_witness :
  ((1 <= 101 <= 100)%Z -> clamp 101 1 100 = 101%Z)
  /\ ((101 < 1)%Z -> clamp 101 1 100 = 1%Z)
  /\ ((101 > 100)%Z -> clamp 101 1 100 = 100%Z).
Proof. apply (clamp_cases 101 1 100). lia. Defined.

Lemma clamp_range (v lo hi : Z) :
  (lo <= hi)%Z -> (lo <= clamp v lo hi <= hi)%Z.
Proof. unfold clamp. lia. Qed.

(** ** The store of list objects *)

Section Store.

Implicit Types (h : heap) (l : loc) (v : list string).

Lemma alloc_fresh v h : h !! fst (alloc v h) = None.
Proof. apply not_elem_of_dom, is_fresh. Qed.

Lemma alloc_subseteq v h : h ⊆ snd (alloc v h).
Proof. apply insert_subseteq, (alloc_fresh v). Qed.

Lemma deref_alloc v h : deref (snd (alloc v h)) (fst (alloc v h)) = v.
Proof. unfold deref, alloc. cbn. by rewrite lookup_insert_eq. Qed.

Lemma lookup_alloc_old v h l :
  is_Some (h !! l) -> snd (alloc v h) !! l = h !! l.
Proof.
  intros [x Hx]. rewrite Hx.
  eapply lookup_weaken; [exact Hx | apply alloc_subseteq].
Qed.

Lemma alloc_old_ne v h l : is_Some (h !! l) -> l <> fst (alloc v h).
Proof. intros [x Hx] ->. by rewrite alloc_fresh in Hx. Qed.

Lemma deref_weaken h h' l :
  h ⊆ h' -> is_Some (h !! l) -> deref h' l = deref h l.
Proof.
  intros Hsub [x Hx]. unfold deref.
  by rewrite (lookup_weaken _ _ _ _ Hx Hsub), Hx.
Qed.

Lemma is_Some_weaken h h' l :
  h ⊆ h' -> is_Some (h !! l) -> is_Some (h' !! l).
Proof. intros Hsub [x Hx]. exists x. by eapply lookup_weaken. Qed.

Lemma mutate_lookup_ne l l' op h :
  l' <> l -> mutate l op h !! l' = h !! l'.
Proof.
  intros Hne. unfold mutate.
  destruct (h !! l); [by rewrite lookup_insert_ne | done].
Qed.

Lemma mutate_all_lookup_ne l l' ops h :
  l' <> l -> mutate_all l ops h !! l' = h !! l'.
Proof.
  intros Hne. revert h. unfold mutate_all.
  induction ops as [|op ops IH]; intros h; [done|].
  cbn [foldl]. by rewrite IH, mutate_lookup_ne.
Qed.

End Store.

(** ** [TailTile.update], branch by branch *)

Lemma catches_OSError (e : exn) : catches [OSError] e = true.
Proof. by destruct e. Qed.

Lemma stat_eqb_refl (s : Q * Z) : stat_eqb s s = true.
Proof.
  unfold stat_eqb. rewrite Z.eqb_refl, andb_true_r.
  apply Qeq_bool_iff. reflexivity.
Qed.

Lemma truthy_false {A} (l : list A) : truthy l = false <-> l = [].
Proof. by destruct l. Qed.

Lemma truthy_true {A} (l : list A) : truthy l = true <-> l <> [].
Proof. by destruct l. Qed.

Section UpdateBranches.

Variables (w : World) (self : TailTile) (h : heap).

(** [os.stat] raised and there were cached lines. *)
Lemma update_stat_error_clear (e : exn) :
  stat_of w (filepath self) = inl e ->
  content h self <> [] ->
  update w self h =
    Ret (true, set_content self (fst (alloc [] h)), snd (alloc [] h)).
Proof.
  intros Hstat Hne. unfold update, os_stat. rewrite Hstat, catches_OSError.
  by apply truthy_true in Hne as ->.
Qed.

(** [os.stat] raised and the cache was already empty. *)
Lemma update_stat_error_keep (e : exn) :
  stat_of w (filepath self) = inl e ->
  content h self = [] ->
  update w self h = Ret (false, self, h).
Proof.
  intros Hstat Hnil. unfold update, os_stat. rewrite Hstat, catches_OSError.
  by apply truthy_false in Hnil as ->.
Qed.

(** The signature is the stored one. *)
Lemma update_same_stat (st : stat_result) :
  stat_of w (filepath self) = inr st ->
  stat_eqb (st_mtime st, st_size st) (_last_stat self) = true ->
  update w self h = Ret (false, self, h).
Proof.
  intros Hstat Heq. unfold update, os_stat. rewrite Hstat. cbv zeta.
  by rewrite Heq.
Qed.

(** The signature differs: the file is read again. *)
Lemma update_new_stat (st : stat_result) (ls : list string) :
  stat_of w (filepath self) = inr st ->
  stat_eqb (st_mtime st, st_size st) (_last_stat self) = false ->
  read_last_n_lines w (filepath self) (lines self) = Ret ls ->
  update w self h =
    Ret (true,
         set_content (set_last_stat self (st_mtime st, st_size st))
                     (fst (alloc ls h)),
         snd (alloc ls h)).
Proof.
  intros Hstat Heq Hread. unfold update, os_stat. rewrite Hstat. cbv zeta.
  rewrite Heq. cbn [negb set_last_stat filepath lines]. by rewrite Hread.
Qed.

End UpdateBranches.

Lemma update_branches (w : World) (self : TailTile) (h : heap) :
  exists changed self' h',
    update w self h = Ret (changed, self', h')
    /\ update_branch w self h changed self' h'.
Proof.
  destruct (stat_of w (filepath self)) as [e|st] eqn:Hstat.
  - destruct (content h self) as [|x xs] eqn:Hc.
    + do 3 eexists. split; [by eapply update_stat_error_keep|].
      by eapply UpdStillAbsent.
    + do 3 eexists. split.
      * eapply update_stat_error_clear; [done | by rewrite Hc].
      * eapply UpdCleared; [done | by rewrite Hc].
  - destruct (stat_eqb (st_mtime st, st_size st) (_last_stat self)) eqn:Heq.
    + do 3 eexists. split; [by eapply update_same_stat|].
      by eapply UpdUnchanged.
    + destruct (read_last_n_lines_total w (filepath self) (lines self))
        as [ls Hls].
      do 3 eexists. split; [by eapply update_new_stat|].
      by eapply UpdReread.
Qed.

Lemma update_of_branch (w : World) (self : TailTile) (h : heap)
    (changed : bool) (self' : TailTile) (h' : heap) :
  update_branch w self h changed self' h' ->
  update w self h = Ret (changed, self', h').
Proof.
  intros [e Hst Hc|e Hst Hc|st Hst Heq|st ls Hst Hne Hread].
  - by eapply update_stat_error_clear.
  - by eapply update_stat_error_keep.
  - by eapply update_same_stat.
  - by eapply update_new_stat.
Qed.

Lemma update_branch_of_run (w : World) (self : TailTile) (h : heap)
    (changed : bool) (self' : TailTile) (h' : heap) :
  update w self h = Ret (changed, self', h') ->
  update_branch w self h changed self' h'.
Proof.
  intros Hrun.
  destruct (update_branches w self h) as (c & s & k & Hrun' & Hb).
  rewrite Hrun in Hrun'. by injection Hrun' as -> -> ->.
Qed.

(** ** What every branch of [update] keeps *)

Lemma content_set_content_alloc (t : TailTile) (v : list string) (h : heap) :
  content (snd (alloc v h)) (set_content t (fst (alloc v h))) = v.
Proof. unfold content. cbn [_content set_content]. apply deref_alloc. Qed.

Lemma content_weaken (h h' : heap) (t : TailTile) :
  h ⊆ h' -> wf_tile h t -> content h' t = content h t.
Proof. intros. by apply deref_weaken. Qed.

Lemma wf_tile_weaken (h h' : heap) (t : TailTile) :
  h ⊆ h' -> wf_tile h t -> wf_tile h' t.
Proof. intros. by eapply is_Some_weaken. Qed.

Lemma wf_set_content_alloc (t : TailTile) (v : list string) (h : heap) :
  wf_tile (snd (alloc v h)) (set_content t (fst (alloc v h))).
Proof.
  unfold wf_tile, alloc. cbn. rewrite lookup_insert_eq. by eexists.
Qed.

Section BranchFacts.

Context {w : World} {t : TailTile} {h : heap}
        {changed : bool} {t' : TailTile} {h' : heap}
        (Hb : update_branch w t h changed t' h').

Lemma branch_extends : h ⊆ h'.
Proof using Hb. destruct Hb; try done; apply alloc_subseteq. Qed.

Lemma branch_wf : wf_tile h t -> wf_tile h' t'.
Proof using Hb. destruct Hb; try done; intros _; apply wf_set_content_alloc. Qed.

Lemma branch_filepath : filepath t' = filepath t.
Proof using Hb. by destruct Hb. Qed.

Lemma branch_lines : lines t' = lines t.
Proof using Hb. by destruct Hb. Qed.

Lemma branch_unchanged : changed = false -> t' = t /\ h' = h.
Proof using Hb. by destruct Hb. Qed.

(** After a failed [os.stat] the cache is empty and the signature is the
    old one. *)
Lemma branch_stat_error (e : exn) :
  stat_of w (filepath t) = inl e ->
  content h' t' = [] /\ _last_stat t' = _last_stat t
  /\ changed = truthy (content h t).
Proof using Hb.
  intros He. destruct Hb as [e' _ Hc|e' _ Hc|st Hst _|st ls Hst _ _];
    try congruence.
  - rewrite content_set_content_alloc. split_and!; [done..|].
    symmetry. by apply truthy_true.
  - by rewrite Hc.
Qed.

(** After a read that [open] or [readlines] refused the cache is empty. *)
Lemma branch_read_error (st : stat_result) (e : exn) :
  stat_of w (filepath t) = inr st ->
  stat_eqb (st_mtime st, st_size st) (_last_stat t) = false ->
  text_of w (filepath t) = inl e ->
  changed = true /\ content h' t' = [].
Proof using Hb.
  intros Hst Hne He.
  destruct Hb as [e' Hst' _|e' Hst' _|st' Hst' Heq|st' ls Hst' _ Hread];
    try congruence.
  rewrite content_set_content_alloc.
  rewrite (read_last_n_lines_error _ _ _ _ He) in Hread.
  by injection Hread as <-.
Qed.

(** A new signature makes [update] read the file with the requested
    count. *)
Lemma branch_reread (st : stat_result) :
  stat_of w (filepath t) = inr st ->
  stat_eqb (st_mtime st, st_size st) (_last_stat t) = false ->
  changed = true
  /\ read_last_n_lines w (filepath t) (lines t) = Ret (content h' t')
  /\ _last_stat t' = (st_mtime st, st_size st).
Proof using Hb.
  intros Hst Hne.
  destruct Hb as [e' Hst' _|e' Hst' _|st' Hst' Heq|st' ls Hst' _ Hread];
    try congruence.
  rewrite Hst in Hst'. injection Hst' as <-.
  by rewrite content_set_content_alloc.
Qed.

End BranchFacts.

(** [update] looks at a tile only through its attributes and cached lines. *)
Lemma update_branch_view (w : World) (t1 t2 : TailTile) (h1 h2 : heap)
    (changed : bool) (t1' : TailTile) (h1' : heap) :
  view h1 t1 = view h2 t2 ->
  update_branch w t1 h1 changed t1' h1' ->
  exists t2' h2',
    update_branch w t2 h2 changed t2' h2' /\ view h1' t1' = view h2' t2'.
Proof.
  unfold view. intros [= Hp Hn Hs Hc] Hb.
  destruct Hb as [e Hst Hne|e Hst Hnil|st Hst Heq|st ls Hst Hne Hread].
  - do 2 eexists. split.
    + eapply UpdCleared; [by rewrite <- Hp | by rewrite <- Hc].
    + rewrite !content_set_content_alloc. cbn. congruence.
  - do 2 eexists. split.
    + eapply UpdStillAbsent; [by rewrite <- Hp | by rewrite <- Hc].
    + congruence.
  - do 2 eexists. split.
    + eapply UpdUnchanged; [by rewrite <- Hp | by rewrite <- Hs].
    + congruence.
  - do 2 eexists. split.
    + eapply UpdReread;
        [by rewrite <- Hp | by rewrite <- Hs | by rewrite <- Hp, <- Hn].
    + rewrite !content_set_content_alloc. cbn. congruence.
Qed.

(** ** The polling loop *)

Lemma poll_frame (w : World) (ts : list TailTile) :
  forall (h : heap) (redraw : bool),
    Forall (wf_tile h) ts ->
    exists redraw' ts' h',
      poll w ts h redraw = Ret (redraw', ts', h')
      /\ h ⊆ h'
      /\ Forall (wf_tile h') ts'
      /\ Forall2 (polled_alone w h h') ts ts'.
Proof.
  induction ts as [|t ts IH]; intros h redraw Hwf.
  { exists redraw, [], h. by repeat split. }
  apply Forall_cons in Hwf as [Hwt Hwts].
  destruct (update_branches w t h) as (c & t1 & h1 & Hrun & Hb).
  pose proof (branch_extends Hb) as Hsub1.
  pose proof (branch_wf Hb Hwt) as Hwt1.
  destruct (IH h1 (c || redraw)) as (rd' & ts' & h2 & Hpoll & Hsub2 & Hwf2 & Hall).
  { eapply Forall_impl; [exact Hwts|]. intros x. by apply wf_tile_weaken. }
  exists rd', (t1 :: ts'), h2. split_and!.
  - cbn [poll]. rewrite Hrun. cbn. by rewrite Hpoll.
  - by etrans.
  - apply Forall_cons. split; [by eapply wf_tile_weaken | done].
  - apply Forall2_cons. split.
    + exists c, t1, h1. split; [done|]. unfold view.
      by rewrite (content_weaken h1 h2 t1).
    + clear Hpoll IH. induction Hall as [|x x' xs xs' Hx _ IHxs]; [done|].
      apply Forall_cons in Hwts as [Hwx Hwxs]. apply Forall_cons in Hwf2 as [_ Hwf2].
      apply Forall2_cons. split; [|by apply IHxs].
      destruct Hx as (cx & x1 & k1 & Hrunx & Hview).
      apply update_branch_of_run in Hrunx.
      assert (Hv : view h1 x = view h x)
        by (unfold view; by rewrite (content_weaken h h1 x)).
      destruct (update_branch_view _ _ _ _ _ _ _ _ Hv Hrunx)
        as (x2 & k2 & Hbx & Hview').
      exists cx, x2, k2. split; [by apply update_of_branch | congruence].
Qed.

(** ** Claims about [TailTile.update] *)

(** C2.  When [update] is called and [os.stat] fails on the tile's file: a
    non-empty cache is cleared and [update] returns [True]; with an empty
    cache it returns [False] and changes nothing.  In a poll of several
    tiles, the tile of a deleted file ends with an empty cache, and every
    tile ends as its own [update] would leave it, whatever the other tiles
    are. *)
Theorem update_stat_failure (w : World) (t : TailTile) (e : exn) :
  stat_of w (filepath t) = inl e ->
  (forall h, content h t <> [] ->
     exists t' h', update w t h = Ret (true, t', h') /\ content h' t' = [])
  /\ (forall h, content h t = [] -> update w t h = Ret (false, t, h))
  /\ (forall (ts : list TailTile) (i : nat) (h : heap) (redraw : bool),
        Forall (wf_tile h) ts -> ts !! i = Some t ->
        exists redraw' ts' h',
          poll w ts h redraw = Ret (redraw', ts', h')
          /\ (exists t', ts' !! i = Some t' /\ content h' t' = [])
          /\ Forall2 (polled_alone w h h') ts ts').
Proof.
  intros Hstat. split_and!.
  - intros h Hne. do 2 eexists. split.
    + by eapply update_stat_error_clear.
    + apply content_set_content_alloc.
  - intros h Hnil. by eapply update_stat_error_keep.
  - intros ts i h redraw Hwf Hi.
    destruct (poll_frame w ts h redraw Hwf)
      as (rd' & ts' & h' & Hpoll & _ & _ & Hall).
    exists rd', ts', h'. split_and!; [done| |done].
    destruct (Forall2_lookup_l _ _ _ _ _ Hall Hi) as (t' & Hi' & Halone).
    exists t'. split; [done|].
    destruct Halone as (c & t1 & h1 & Hrun & Hview).
    apply update_branch_of_run in Hrun.
    destruct (branch_stat_error Hrun e Hstat) as (Hnil & _).
    unfold view in Hview. congruence.
Qed.

Lemma update_stat_failure_witness :
  (forall h, content h Sample.tile1 <> [] ->
     exists t' h',
       update Sample.fs_absent Sample.tile1 h = Ret (true, t', h')
       /\ content h' t' = [])
  /\ (forall h, content h Sample.tile1 = [] ->
        update Sample.fs_absent Sample.tile1 h = Ret (false, Sample.tile1, h))
  /\ (forall (ts : list TailTile) (i : nat) (h : heap) (redraw : bool),
        Forall (wf_tile h) ts -> ts !! i = Some Sample.tile1 ->
        exists redraw' ts' h',
          poll Sample.fs_absent ts h redraw = Ret (redraw', ts', h')
          /\ (exists t', ts' !! i = Some t' /\ content h' t' = [])
          /\ Forall2 (polled_alone Sample.fs_absent h h') ts ts').
Proof.
  apply (update_stat_failure Sample.fs_absent Sample.tile1 FileNotFoundError).
  reflexivity.
Defined.

Example update_after_delete :
  content Sample.heap1 Sample.tile1 = ["x"; "y"; "z"]
  /\ exists t' h',
       update Sample.fs_absent Sample.tile1 Sample.heap1 = Ret (true, t', h')
       /\ content h' t' = [].
Proof. split; [reflexivity|]. do 2 eexists. split; reflexivity. Qed.


(** C5.  Two calls of [update] in a row on an unchanged file system: the
    second returns [False] and leaves the tile and its cached lines exactly
    as the first call left them. *)
Theorem update_twice_unchanged (w : World) (t : TailTile) (h : heap) :
  exists changed t1 h1,
    update w t h = Ret (changed, t1, h1)
    /\ update w t1 h1 = Ret (false, t1, h1)
    /\ forall c2 t2 h2,
         update w t1 h1 = Ret (c2, t2, h2) ->
         c2 = false /\ content h2 t2 = content h1 t1.
Proof.
  destruct (update_branches w t h) as (c & t1 & h1 & Hrun & Hb).
  assert (Hsecond : update w t1 h1 = Ret (false, t1, h1)).
  { destruct Hb as [e Hst Hne|e Hst Hnil|st Hst Heq|st ls Hst Hne Hread].
    - eapply update_stat_error_keep; [exact Hst|].
      apply content_set_content_alloc.
    - by eapply update_stat_error_keep.
    - by eapply update_same_stat.
    - eapply update_same_stat; [exact Hst|]. apply stat_eqb_refl. }
  exists c, t1, h1. split_and!; [done..|].
  intros c2 t2 h2 Hrun2. rewrite Hsecond in Hrun2. by injection Hrun2 as <- <- <-.
Qed.

Lemma update_twice_unchanged_witness :
  exists changed t1 h1,
    update Sample.fs_present Sample.tile0 Sample.heap0 = Ret (changed, t1, h1)
    /\ update Sample.fs_present t1 h1 = Ret (false, t1, h1)
    /\ content h1 t1 = ["x"; "y"; "z"].
Proof.
  destruct (update_twice_unchanged Sample.fs_present Sample.tile0 Sample.heap0)
    as (c & t1 & h1 & Hfirst & Hsecond & _).
  exists c, t1, h1. split_and!; [exact Hfirst | exact Hsecond |].
  change (update Sample.fs_present Sample.tile0 Sample.heap0)
    with (Ret (true, Sample.tile1, Sample.heap1)) in Hfirst.
  by injection Hfirst as _ <- <-.
Defined.

(** C9.  The branch of [update] taken when [os.stat] fails leaves the stored
    signature as it was.  So when the file of a tile is deleted and then
    created again with a (modification time, size) pair equal to the stored
    one, the next [update] returns [False] and the cache stays empty. *)
Theorem stat_failure_keeps_signature (w_gone w_back : World) (t : TailTile)
    (h : heap) (e : exn) (st : stat_result) :
  stat_of w_gone (filepath t) = inl e ->
  stat_of w_back (filepath t) = inr st ->
  stat_eqb (st_mtime st, st_size st) (_last_stat t) = true ->
  exists changed t1 h1,
    update w_gone t h = Ret (changed, t1, h1)
    /\ _last_stat t1 = _last_stat t
    /\ filepath t1 = filepath t
    /\ lines t1 = lines t
    /\ content h1 t1 = []
    /\ update w_back t1 h1 = Ret (false, t1, h1).
Proof.
  intros Hgone Hback Heq.
  destruct (update_branches w_gone t h) as (c & t1 & h1 & Hrun & Hb).
  destruct (branch_stat_error Hb e Hgone) as (Hnil & Hsig & _).
  exists c, t1, h1.
  split_and!; [done | done | apply (branch_filepath Hb)
              | apply (branch_lines Hb) | done |].
  eapply update_same_stat.
  - rewrite (branch_filepath Hb). exact Hback.
  - by rewrite Hsig.
Qed.

Lemma stat_failure_keeps_signature_witness :
  exists changed t1 h1,
    update Sample.fs_absent Sample.tile1 Sample.heap1 = Ret (changed, t1, h1)
    /\ _last_stat t1 = _last_stat Sample.tile1
    /\ filepath t1 = filepath Sample.tile1
    /\ lines t1 = lines Sample.tile1
    /\ content h1 t1 = []
    /\ update Sample.fs_present t1 h1 = Ret (false, t1, h1).
Proof.
  apply (stat_failure_keeps_signature Sample.fs_absent Sample.fs_present
           Sample.tile1 Sample.heap1 FileNotFoundError
           {| st_mtime := 1700000000.5%Q; st_size := 7 |});
    reflexivity.
Defined.

(** ** [TileRenderer.adjust_lines] *)

Lemma adjust_lines_tiles (r : TileRenderer) (delta : Z) :
  tiles (adjust_lines r delta) =
  (fun tile => set_last_stat (set_lines tile (line_count (adjust_lines r delta)))
                             sentinel) <$> tiles r.
Proof. reflexivity. Qed.

Lemma adjust_lines_count (r : TileRenderer) (delta : Z) :
  line_count (adjust_lines r delta) = clamp (line_count r + delta) 1 100.
Proof. reflexivity. Qed.

(** C3, as the code has it.  [adjust_lines(delta)] sets the display-wide
    line count to the old count plus [delta] clamped to [1, 100] (100 plus 1
    stays 100, 1 minus 1 stays 1), gives that count to every tile, and resets
    every tile's signature to the sentinel [(0, 0)], the signature of a tile
    that has never seen its file; the next [update] of a tile whose file
    [os.stat] finds with a signature other than [(0, 0)] reads the file
    again with the new count. *)
Theorem adjust_lines_spec (r : TileRenderer) (delta : Z) :
  let r' := adjust_lines r delta in
  let count := line_count r' in
  (1 <= count <= 100)%Z
  /\ ((1 <= line_count r + delta <= 100)%Z -> count = (line_count r + delta)%Z)
  /\ ((line_count r + delta < 1)%Z -> count = 1%Z)
  /\ ((line_count r + delta > 100)%Z -> count = 100%Z)
  /\ (line_count r = 100%Z -> delta = 1%Z -> count = 100%Z)
  /\ (line_count r = 1%Z -> delta = (-1)%Z -> count = 1%Z)
  /\ Forall2 (fun t t' =>
                filepath t' = filepath t /\ _content t' = _content t
                /\ lines t' = count /\ _last_stat t' = sentinel)
             (tiles r) (tiles r')
  /\ (forall path n h, _last_stat (fst (TailTile_init path n h)) = sentinel)
  /\ (forall t' w h st,
        t' ∈ tiles r' ->
        stat_of w (filepath t') = inr st ->
        stat_eqb (st_mtime st, st_size st) sentinel = false ->
        exists t'' h',
          update w t' h = Ret (true, t'', h')
          /\ read_last_n_lines w (filepath t') count = Ret (content h' t'')
          /\ lines t'' = count).
Proof.
  intros r' count. subst r' count. rewrite adjust_lines_count.
  pose proof (clamp_range (line_count r + delta) 1 100 ltac:(lia)) as Hrange.
  assert (((1 <= line_count r + delta <= 100)%Z ->
           clamp (line_count r + delta) 1 100 = (line_count r + delta)%Z)
          /\ ((line_count r + delta < 1)%Z ->
              clamp (line_count r + delta) 1 100 = 1%Z)
          /\ ((line_count r + delta > 100)%Z ->
              clamp (line_count r + delta) 1 100 = 100%Z))
    as (Hin & Hlo & Hhi) by (unfold clamp; lia).
  split; [exact Hrange|]. split; [exact Hin|]. split; [exact Hlo|].
  split; [exact Hhi|]. split; [|split; [|split; [|split]]].
  - intros Hc Hd. apply Hhi. lia.
  - intros Hc Hd. apply Hlo. lia.
  - rewrite adjust_lines_tiles, adjust_lines_count.
    apply Forall2_fmap_r, Forall_Forall2_diag, Forall_forall. by intros t _.
  - done.
  - intros t' w h st Hin' Hst Hne.
    rewrite adjust_lines_tiles, adjust_lines_count in Hin'.
    apply list_elem_of_fmap in Hin' as (t & -> & _).
    destruct (update_branches w
                (set_last_stat (set_lines t (clamp (line_count r + delta) 1 100))
                               sentinel) h)
      as (c & t'' & h' & Hrun & Hb).
    destruct (branch_reread Hb st Hst Hne) as (-> & Hread & _).
    exists t'', h'. split_and!; [done..|].
    by rewrite (branch_lines Hb).
Qed.

Lemma adjust_lines_spec_witness :
  line_count (adjust_lines Sample.renderer1 (-8)) = 2%Z
  /\ exists t'' h',
       update Sample.fs_present Sample.tile1_two_lines Sample.heap1
         = Ret (true, t'', h')
       /\ read_last_n_lines Sample.fs_present
            (filepath Sample.tile1_two_lines)
            (line_count (adjust_lines Sample.renderer1 (-8)))
          = Ret (content h' t'')
       /\ lines t'' = line_count (adjust_lines Sample.renderer1 (-8)).
Proof.
  destruct (adjust_lines_spec Sample.renderer1 (-8))
    as (_ & Hin & _ & _ & _ & _ & _ & _ & Hnext).
  split; [reflexivity|].
  apply (Hnext Sample.tile1_two_lines Sample.fs_present Sample.heap1
           {| st_mtime := 1700000000.5%Q; st_size := 7 |}).
  - change (tiles (adjust_lines Sample.renderer1 (-8)))
      with [Sample.tile1_two_lines]. apply list_elem_of_here.
  - reflexivity.
  - reflexivity.
Defined.

(** C3 as stated does not hold: the sentinel is a signature a file can
    have.  A tile caches x, y, z; [adjust_lines(-8)] leaves it asking for two
    lines, with the signature [(0, 0)].  The file is now empty and carries
    the modification time 0, so [os.stat] reports [(0.0, 0)], which compares
    equal to the sentinel: the next [update] returns [False] and reads
    nothing, and the tile keeps the three lines, where reading the file with
    the new count gives none. *)
Lemma adjust_lines_no_reread_at_epoch :
  tiles (adjust_lines Sample.renderer1 (-8)) = [Sample.tile1_two_lines]
  /\ _last_stat Sample.tile1_two_lines = sentinel
  /\ stat_of Edge.fs_epoch (filepath Sample.tile1_two_lines)
     = inr {| st_mtime := 0%Q; st_size := 0 |}
  /\ update Edge.fs_epoch Sample.tile1_two_lines Sample.heap1
     = Ret (false, Sample.tile1_two_lines, Sample.heap1)
  /\ content Sample.heap1 Sample.tile1_two_lines = ["x"; "y"; "z"]
  /\ read_last_n_lines Edge.fs_epoch (filepath Sample.tile1_two_lines) 2
     = Ret []
  /\ ~ exists t'' h',
        update Edge.fs_epoch Sample.tile1_two_lines Sample.heap1
          = Ret (true, t'', h')
        /\ read_last_n_lines Edge.fs_epoch (filepath Sample.tile1_two_lines) 2
           = Ret (content h' t'').
Proof.
  assert (Hrun : update Edge.fs_epoch Sample.tile1_two_lines Sample.heap1
                 = Ret (false, Sample.tile1_two_lines, Sample.heap1))
    by (vm_compute; reflexivity).
  split_and!; try (vm_compute; reflexivity).
  intros (t'' & h' & Hre & _). rewrite Hrun in Hre. discriminate.
Qed.

Example adjust_lines_then_update :
  let r := adjust_lines (TileRenderer_init [Sample.tile1] (1, 1)%Z) (-8) in
  line_count r = 2%Z
  /\ exists t' t'' h',
       tiles r = [t']
       /\ content Sample.heap1 t' = ["x"; "y"; "z"]
       /\ update Sample.fs_present t' Sample.heap1 = Ret (true, t'', h')
       /\ content h' t'' = ["y"; "z"].
Proof.
  split; [reflexivity|]. do 3 eexists. split_and!; reflexivity.
Qed.

(** ** [TailTile.get_content] *)

Lemma mutate_all_deref (l : loc) (ops : list list_op) (h : heap) :
  is_Some (h !! l) ->
  deref (mutate_all l ops h) l = foldl (fun v op => apply_op op v) (deref h l) ops.
Proof.
  revert h. unfold mutate_all.
  induction ops as [|op ops IH]; intros h Hl; [done|].
  cbn [foldl]. destruct Hl as [v Hv].
  assert (Hm : mutate l op h !! l = Some (apply_op op v))
    by (unfold mutate; by rewrite Hv, lookup_insert_eq).
  rewrite IH by (by eexists). unfold deref. by rewrite Hm, Hv.
Qed.

Lemma content_same_lookup (h h' : heap) (t : TailTile) :
  h' !! _content t = h !! _content t -> content h' t = content h t.
Proof. intros Heq. unfold content, deref. by rewrite Heq. Qed.

(** C8.  [get_content] returns a copy: a new list object that holds the
    cached lines.  Whatever the caller then does to that list (append,
    remove, replace, clear), the tile's own list is as before, and a later
    [get_content] returns the same lines as before the mutation. *)
Theorem get_content_defensive_copy (t : TailTile) (h : heap)
    (ops : list list_op) :
  wf_tile h t ->
  let r := fst (get_content t h) in
  let h1 := snd (get_content t h) in
  let h2 := mutate_all r ops h1 in
  r <> _content t
  /\ deref h1 r = content h t
  /\ content h1 t = content h t
  /\ deref h2 r = foldl (fun v op => apply_op op v) (content h t) ops
  /\ h2 !! _content t = h !! _content t
  /\ content h2 t = content h t
  /\ deref (snd (get_content t h2)) (fst (get_content t h2)) = content h t.
Proof.
  intros Hwf r h1 h2. subst r h1 h2. unfold get_content.
  pose proof (alloc_old_ne (content h t) h _ Hwf) as Hne.
  assert (Hkeep : mutate_all (fst (alloc (content h t) h)) ops
                    (snd (alloc (content h t) h)) !! _content t
                  = h !! _content t).
  { rewrite mutate_all_lookup_ne by done. by apply lookup_alloc_old. }
  assert (Hc : content (mutate_all (fst (alloc (content h t) h)) ops
                          (snd (alloc (content h t) h))) t = content h t).
  { by apply content_same_lookup. }
  split_and!.
  - by intros Heq.
  - apply deref_alloc.
  - by apply content_same_lookup, lookup_alloc_old.
  - rewrite mutate_all_deref, deref_alloc; [done|].
    unfold alloc. cbn. rewrite lookup_insert_eq. by eexists.
  - exact Hkeep.
  - exact Hc.
  - by rewrite deref_alloc.
Qed.

Lemma get_content_defensive_copy_witness :
  let r := fst (get_content Sample.tile1 Sample.heap1) in
  let h1 := snd (get_content Sample.tile1 Sample.heap1) in
  let h2 := mutate_all r Sample.scribble h1 in
  r <> _content Sample.tile1
  /\ deref h1 r = content Sample.heap1 Sample.tile1
  /\ content h1 Sample.tile1 = content Sample.heap1 Sample.tile1
  /\ deref h2 r = foldl (fun v op => apply_op op v)
                        (content Sample.heap1 Sample.tile1) Sample.scribble
  /\ h2 !! _content Sample.tile1 = Sample.heap1 !! _content Sample.tile1
  /\ content h2 Sample.tile1 = content Sample.heap1 Sample.tile1
  /\ deref (snd (get_content Sample.tile1 h2)) (fst (get_content Sample.tile1 h2))
     = content Sample.heap1 Sample.tile1.
Proof.
  apply (get_content_defensive_copy Sample.tile1 Sample.heap1 Sample.scribble).
  vm_compute. by eexists.
Defined.

(** The caller's list does change, and a list that is shared would change
    the cache: the copy is what protects it. *)
Example mutation_is_visible_through_a_shared_reference :
  let r := fst (get_content Sample.tile1 Sample.heap1) in
  let h1 := snd (get_content Sample.tile1 Sample.heap1) in
  deref (mutate_all r Sample.scribble h1) r = ["v"]
  /\ content (mutate_all r Sample.scribble h1) Sample.tile1 = ["x"; "y"; "z"]
  /\ content (mutate_all (_content Sample.tile1) Sample.scribble h1) Sample.tile1
     = ["v"].
Proof. cbv zeta. split_and!; reflexivity. Qed.

(** ** The bound on the cached lines *)

Lemma slice_from_neg_length {A} (l : list A) (n : Z) :
  (1 <= n)%Z -> (Z.of_nat (length (slice_from l (- n))) <= n)%Z.
Proof.
  intros Hn. unfold slice_from. rewrite length_drop.
  destruct (Z.ltb_spec (- n) 0); lia.
Qed.

Lemma read_last_n_lines_length (w : World) (path : string) (n : Z)
    (ls : list string) :
  (1 <= n)%Z ->
  read_last_n_lines w path n = Ret ls ->
  (Z.of_nat (length ls) <= n)%Z.
Proof.
  intros Hn Hread. destruct (text_of w path) as [e|raw] eqn:Ht.
  - rewrite (read_last_n_lines_error _ _ _ _ Ht) in Hread.
    injection Hread as <-. simpl. lia.
  - rewrite (read_last_n_lines_text _ _ _ _ Ht) in Hread.
    injection Hread as <-. by apply slice_from_neg_length.
Qed.

(** C6, as the code has it.  The cached lines are at most the requested
    count after construction (for a count that is not negative) and after
    every [update] of a tile that asks for at least one line, when the call
    reports a change or the bound held before it.  [adjust_lines] leaves
    every tile with a count between 1 and 100 and does not touch the cache:
    the bound holds after it for the tiles whose cache is no longer than the
    new count. *)
Theorem tile_inv_construct_update :
  (forall path n h, (0 <= n)%Z ->
     tile_inv (snd (TailTile_init path n h)) (fst (TailTile_init path n h)))
  /\ (forall w t h, (1 <= lines t)%Z ->
        exists changed t' h',
          update w t h = Ret (changed, t', h')
          /\ lines t' = lines t
          /\ (changed = true \/ tile_inv h t -> tile_inv h' t'))
  /\ (forall r delta h t',
        t' ∈ tiles (adjust_lines r delta) ->
        (1 <= lines t' <= 100)%Z
        /\ ((Z.of_nat (length (content h t'))
               <= line_count (adjust_lines r delta))%Z ->
            tile_inv h t')).
Proof.
  split_and!.
  - intros path n h Hn. unfold tile_inv, TailTile_init.
    change (content _ _) with (deref (snd (alloc [] h)) (fst (alloc [] h))).
    rewrite deref_alloc. simpl. lia.
  - intros w t h Hn.
    destruct (update_branches w t h) as (c & t' & h' & Hrun & Hb).
    exists c, t', h'. split_and!; [done | by apply (branch_lines Hb) |].
    unfold tile_inv.
    destruct Hb as [e Hst Hne|e Hst Hnil|st Hst Heq|st ls Hst Hne Hread].
    + intros _. rewrite content_set_content_alloc. simpl. lia.
    + by intros [?|?].
    + by intros [?|?].
    + intros _. rewrite content_set_content_alloc. cbn [lines set_content set_last_stat].
      by eapply read_last_n_lines_length.
  - intros r delta h t' Hin.
    rewrite adjust_lines_tiles in Hin.
    apply list_elem_of_fmap in Hin as (t & -> & _).
    cbn [lines set_last_stat set_lines]. rewrite adjust_lines_count.
    split; [apply clamp_range; lia | done].
Qed.

Lemma tile_inv_construct_update_witness :
  tile_inv Sample.heap0 Sample.tile0
  /\ exists changed t' h',
       update Sample.fs_present Sample.tile0 Sample.heap0 = Ret (changed, t', h')
       /\ lines t' = 10%Z
       /\ tile_inv h' t'.
Proof.
  destruct tile_inv_construct_update as (Hinit & Hupd & _).
  pose proof (Hinit Sample.a_log 10%Z ∅ ltac:(lia)) as H0.
  split; [exact H0|].
  destruct (Hupd Sample.fs_present Sample.tile0 Sample.heap0 ltac:(simpl; lia))
    as (c & t' & h' & Hrun & Hlines & Hinv).
  exists c, t', h'. split_and!; [exact Hrun | exact Hlines |].
  apply Hinv. by right.
Defined.

(** C6 as stated does not hold: the viewer is started on a file of three
    lines with three lines requested, and the user presses [-].  After that
    turn of the loop the tile asks for two lines and still caches three. *)
Lemma tile_inv_broken_by_adjust_lines :
  exists v v' t',
    viewer_start Sample.fs_present [Sample.a_log] (1, 1)%Z 3 = Ret v
    /\ Forall (tile_inv (store v)) (tiles (renderer v))
    /\ viewer_turn Sample.fs_present KeyFewer v = Ret (Some v')
    /\ tiles (renderer v') = [t']
    /\ lines t' = 2%Z
    /\ content (store v') t' = ["x"; "y"; "z"]
    /\ ~ tile_inv (store v') t'.
Proof.
  do 3 eexists. split_and!.
  - vm_compute. reflexivity.
  - apply Forall_cons. split; [|apply Forall_nil_2].
    unfold tile_inv. vm_compute. discriminate.
  - vm_compute. reflexivity.
  - reflexivity.
  - reflexivity.
  - reflexivity.
  - unfold tile_inv. vm_compute. intros Hle. by apply Hle.
Qed.

(** The next [update] of that tile reads the file again and restores the
    bound. *)
Example tile_inv_restored_by_next_update :
  exists v v1 v2 t2,
    viewer_start Sample.fs_present [Sample.a_log] (1, 1)%Z 3 = Ret v
    /\ viewer_turn Sample.fs_present KeyFewer v = Ret (Some v1)
    /\ viewer_turn Sample.fs_present KeyOther v1 = Ret (Some v2)
    /\ tiles (renderer v2) = [t2]
    /\ lines t2 = 2%Z
    /\ content (store v2) t2 = ["y"; "z"].
Proof.
  do 4 eexists. split_and!; try (vm_compute; reflexivity); reflexivity.
Qed.


(** * Further properties of the module *)

(** ** A new tile and its first [update] *)



(** X1.  A tile built on a file that exists and can be read shows, after its
    first [update], the last [n] records of the file (all of them when there
    are fewer), and [update] reports a change.  The file is one whose
    signature is not [(0, 0)]. *)
Theorem first_update_shows_tail (w : World) (path raw : string) (n : Z)
    (hp : heap) (st : stat_result) :
  (1 <= n)%Z ->
  stat_of w path = inr st ->
  stat_eqb (st_mtime st, st_size st) sentinel = false ->
  text_of w path = inr raw ->
  exists t' hp',
    update w (fst (TailTile_init path n hp)) (snd (TailTile_init path n hp))
      = Ret (true, t', hp')
    /\ content hp' t' = Spec.last_n (Z.to_nat n) (Spec.newline_records raw)
    /\ (length (content hp' t') <= Z.to_nat n)%nat
    /\ filepath t' = path /\ lines t' = n.
Proof.
  intros Hn Hst Hne Hraw.
  destruct (update_branches w (fst (TailTile_init path n hp))
              (snd (TailTile_init path n hp))) as (c & t' & hp' & Hrun & Hb).
  destruct (branch_reread Hb st Hst Hne) as (-> & Hread & _).
  exists t', hp'. split; [done|].
  cbn [TailTile_init alloc fst snd filepath lines] in Hread.
  rewrite (read_last_n_lines_text _ _ _ _ Hraw) in Hread.
  injection Hread as Hread.
  rewrite slice_from_neg_last_n, lines_of_text_records in Hread by done.
  split_and!.
  - done.
  - rewrite <- Hread. unfold Spec.last_n.
    rewrite length_reverse, length_take. lia.
  - by rewrite (branch_filepath Hb).
  - by rewrite (branch_lines Hb).
Qed.

Lemma first_update_shows_tail_witness :
  exists t' hp',
    update Sample.fs_present (fst (TailTile_init Sample.a_log 2 ∅))
      (snd (TailTile_init Sample.a_log 2 ∅)) = Ret (true, t', hp')
    /\ content hp' t'
       = Spec.last_n (Z.to_nat 2) (Spec.newline_records Sample.three_lines)
    /\ (length (content hp' t') <= Z.to_nat 2)%nat
    /\ filepath t' = Sample.a_log /\ lines t' = 2%Z.
Proof.
  apply (first_update_shows_tail Sample.fs_present Sample.a_log
           Sample.three_lines 2 ∅
           {| st_mtime := 1700000000.5%Q; st_size := 7 |});
    [lia | reflexivity..].
Defined.

(** ** [read_last_n_lines] with a negative count *)

(** X2.  With a negative [n] the slice [lines[-n:]] starts at index [-n]:
    [read_last_n_lines] returns the records of the file without the first
    [-n] of them, and nothing when there are no more than that. *)
Theorem read_last_n_lines_negative (w : World) (path raw : string) (n : Z) :
  (n < 0)%Z ->
  text_of w path = inr raw ->
  read_last_n_lines w path n
    = Ret (drop (Z.to_nat (- n)) (Spec.newline_records raw)).
Proof.
  intros Hn Hraw. rewrite (read_last_n_lines_text _ _ _ _ Hraw).
  rewrite lines_of_text_records. f_equal. unfold slice_from.
  destruct (Z.ltb_spec (- n) 0) as [?|_]; [lia|].
  destruct (Z.le_gt_cases (- n) (Z.of_nat (length (Spec.newline_records raw))))
    as [Hle|Hgt].
  - by rewrite Z.min_l.
  - rewrite Z.min_r, Nat2Z.id by lia. by rewrite !drop_ge by lia.
Qed.

Lemma read_last_n_lines_negative_witness :
  read_last_n_lines Sample.fs_present Sample.a_log (-1)
    = Ret (drop (Z.to_nat (- -1)) (Spec.newline_records Sample.three_lines)).
Proof.
  apply (read_last_n_lines_negative Sample.fs_present Sample.a_log
           Sample.three_lines (-1)); [lia | reflexivity].
Defined.

Example read_last_n_lines_minus_one :
  read_last_n_lines Sample.fs_present Sample.a_log (-1) = Ret ["y"; "z"].
Proof. reflexivity. Qed.

(** ** A poll that reports nothing *)

Lemma poll_flag_true (w : World) (ts : list TailTile) (hp : heap)
    (flag : bool) (ts' : list TailTile) (hp' : heap) :
  poll w ts hp true = Ret (flag, ts', hp') -> flag = true.
Proof.
  revert hp ts' hp'. induction ts as [|t ts IH]; intros hp ts' hp' Hpoll.
  - cbn in Hpoll. by injection Hpoll as <- _ _.
  - cbn [poll] in Hpoll.
    destruct (update_branches w t hp) as (c & t1 & h1 & Hrun & _).
    rewrite Hrun in Hpoll. cbn in Hpoll. rewrite orb_true_r in Hpoll.
    destruct (poll w ts h1 true) as [[[f r] k]|e] eqn:Hrest; cbn in Hpoll;
      [|done].
    injection Hpoll as <- _ _. by eapply IH.
Qed.

(** X3.  When the polling loop ends with the redraw flag down, the flag was
    down before it and the poll changed nothing: every tile and the whole
    store of lists are as they were. *)
Theorem poll_quiet_changes_nothing (w : World) (ts : list TailTile) (hp : heap)
    (redraw : bool) (ts' : list TailTile) (hp' : heap) :
  poll w ts hp redraw = Ret (false, ts', hp') ->
  redraw = false /\ ts' = ts /\ hp' = hp.
Proof.
  revert hp redraw ts' hp'.
  induction ts as [|t ts IH]; intros hp redraw ts' hp' Hpoll.
  - cbn in Hpoll. by injection Hpoll as -> <- <-.
  - cbn [poll] in Hpoll.
    destruct (update_branches w t hp) as (c & t1 & h1 & Hrun & Hb).
    rewrite Hrun in Hpoll. cbn in Hpoll.
    destruct (poll w ts h1 (c || redraw)) as [[[f r] k]|e] eqn:Hrest;
      cbn in Hpoll; [|done].
    injection Hpoll as -> <- <-.
    destruct (IH _ _ _ _ Hrest) as (Hflag & -> & ->).
    apply orb_false_elim in Hflag as [-> ->].
    by destruct (branch_unchanged Hb eq_refl) as [-> ->].
Qed.

Lemma poll_quiet_changes_nothing_witness :
  poll Sample.fs_present [Sample.tile1] Sample.heap1 false
    = Ret (false, [Sample.tile1], Sample.heap1)
  /\ false = false /\ [Sample.tile1] = [Sample.tile1]
  /\ Sample.heap1 = Sample.heap1.
Proof.
  split; [reflexivity|].
  apply (poll_quiet_changes_nothing Sample.fs_present [Sample.tile1]
           Sample.heap1 false [Sample.tile1] Sample.heap1).
  reflexivity.
Defined.

(** ** The refresh key *)

Lemma polled_alone_attrs (w : World) (hp hp' : heap) (t t' : TailTile) :
  polled_alone w hp hp' t t' ->
  filepath t' = filepath t /\ lines t' = lines t.
Proof.
  intros (c & t1 & h1 & Hrun & Hview).
  apply update_branch_of_run in Hrun.
  unfold view in Hview. injection Hview as Hp Hn _ _.
  by rewrite Hp, Hn, (branch_filepath Hrun), (branch_lines Hrun).
Qed.

Lemma refresh_as_poll (w : World) (ts : list TailTile) :
  forall (hp : heap) (flag : bool),
    refresh w ts hp =
    match poll w ((fun t => set_last_stat t sentinel) <$> ts) hp flag with
    | Ret (_, ts', hp') => Ret (ts', hp')
    | Raise e => Raise e
    end.
Proof.
  induction ts as [|t ts IH]; intros hp flag; [done|].
  cbn [refresh poll fmap list_fmap].
  destruct (update w (set_last_stat t sentinel) hp) as [[[c t1] h1]|e]; [|done].
  cbn. rewrite (IH h1 (c || flag)).
  by destruct (poll w _ h1 (c || flag)) as [[[f r] k]|e].
Qed.

Lemma refresh_frame (w : World) (ts : list TailTile) (hp : heap) :
  Forall (wf_tile hp) ts ->
  exists ts' hp',
    refresh w ts hp = Ret (ts', hp')
    /\ hp ⊆ hp'
    /\ Forall (wf_tile hp') ts'
    /\ Forall2 (refreshed w hp') ts ts'.
Proof.
  intros Hwf.
  destruct (poll_frame w ((fun t => set_last_stat t sentinel) <$> ts) hp false)
    as (rd & ts' & hp' & Hpoll & Hsub & Hwf' & Hall).
  { apply Forall_fmap. eapply Forall_impl; [exact Hwf|]. by intros t. }
  exists ts', hp'. split_and!; [|done..|].
  - by rewrite (refresh_as_poll w ts hp false), Hpoll.
  - rewrite Forall2_fmap_l in Hall. eapply Forall2_impl; [exact Hall|].
    intros t t' Halone. cbn in Halone.
    destruct (polled_alone_attrs _ _ _ _ _ Halone) as [Hp Hn].
    destruct Halone as (c & t1 & h1 & Hrun & Hview).
    apply update_branch_of_run in Hrun.
    unfold view in Hview. injection Hview as _ _ Hs Hc.
    split_and!; [done..| |].
    + intros e He. rewrite Hc.
      by destruct (branch_stat_error Hrun e He).
    + intros st Hst Hne.
      destruct (branch_reread Hrun st Hst Hne) as (_ & Hread & Hsig).
      rewrite Hc, Hs. by split.
Qed.

(** X4.  The refresh key ([r]) brings every tile up to date whatever
    signature it had stored: after [refresh], a tile whose file [os.stat]
    does not find caches nothing, and a tile whose file it finds (with a
    signature other than [(0, 0)]) caches what [read_last_n_lines] returns now
    and stores the file's signature.  Path and count are kept. *)
Theorem refresh_rereads (w : World) (ts : list TailTile) (hp : heap) :
  Forall (wf_tile hp) ts ->
  exists ts' hp',
    refresh w ts hp = Ret (ts', hp')
    /\ hp ⊆ hp'
    /\ Forall (wf_tile hp') ts'
    /\ Forall2 (refreshed w hp') ts ts'.
Proof. apply refresh_frame. Qed.

Lemma refresh_rereads_witness :
  exists ts' hp',
    refresh Sample.fs_absent [Sample.tile1] Sample.heap1 = Ret (ts', hp')
    /\ Sample.heap1 ⊆ hp'
    /\ Forall (wf_tile hp') ts'
    /\ Forall2 (refreshed Sample.fs_absent hp') [Sample.tile1] ts'.
Proof.
  apply (refresh_rereads Sample.fs_absent [Sample.tile1] Sample.heap1).
  apply Forall_cons. split; [|apply Forall_nil_2].
  vm_compute. by eexists.
Defined.

(** ** What drawing does to the store *)

Lemma draw_tile_store (scr : Screen) (tile : TailTile) (y x h w idx : Z)
    (hp : heap) :
  hp ⊆ snd (_draw_tile scr tile y x h w idx hp).
Proof.
  unfold _draw_tile.
  destruct (attempt scr (tile_head_calls (filepath tile) y x w idx)) as [made ok].
  destruct ok; [|done]. unfold get_content.
  destruct (alloc (content hp tile) hp) as [r hp1] eqn:Ha. cbn.
  change hp1 with (snd (r, hp1)). rewrite <- Ha. apply alloc_subseteq.
Qed.

Lemma draw_tiles_store (scr : Screen) (rows cols h w : Z) (ts : list TailTile) :
  forall (i : Z) (hp : heap), hp ⊆ snd (draw_tiles scr rows cols h w ts i hp).
Proof.
  induction ts as [|t ts IH]; intros i hp; [done|].
  cbn [draw_tiles]. destruct (tile_rect rows cols h w i) as [[[y x] th] tw].
  pose proof (draw_tile_store scr t y x th tw i hp) as Hsub.
  destruct (_draw_tile scr t y x th tw i hp) as [ops hp1].
  specialize (IH (i + 1)%Z hp1).
  destruct (draw_tiles scr rows cols h w ts (i + 1) hp1) as [ops' hp2].
  cbn in *. by etrans.
Qed.

Lemma render_store (scr : Screen) (r : TileRenderer) (hp : heap)
    (ops : list draw_op) (hp' : heap) :
  render scr r hp = Some (ops, hp') -> hp ⊆ hp'.
Proof.
  unfold render. destruct (getmaxyx scr) as [h w].
  destruct ((rows r =? 0)%Z || (cols r =? 0)%Z); [done|].
  pose proof (draw_tiles_store scr (rows r) (cols r) h w (tiles r) 0 hp) as Hsub.
  destruct (draw_tiles scr (rows r) (cols r) h w (tiles r) 0 hp) as [o k].
  by intros [= _ <-].
Qed.

Lemma render_defined (scr : Screen) (r : TileRenderer) (hp : heap) :
  rows r <> 0%Z -> cols r <> 0%Z ->
  exists ops hp', render scr r hp = Some (ops, hp').
Proof.
  intros Hr Hc. unfold render. destruct (getmaxyx scr) as [h w].
  apply Z.eqb_neq in Hr as ->. apply Z.eqb_neq in Hc as ->. cbn.
  destruct (draw_tiles scr (rows r) (cols r) h w (tiles r) 0 hp) as [o k].
  by do 2 eexists.
Qed.

(** X5.  [render] never changes a cache: it only adds the copies that
    [get_content] makes.  Every list object of the store is still there with
    the same elements, so every tile caches after [render] what it cached
    before. *)
Theorem render_keeps_caches (scr : Screen) (r : TileRenderer) (hp : heap)
    (ops : list draw_op) (hp' : heap) :
  render scr r hp = Some (ops, hp') ->
  hp ⊆ hp'
  /\ forall t, wf_tile hp t -> wf_tile hp' t /\ content hp' t = content hp t.
Proof.
  intros Hsub%render_store. split; [done|]. intros t Hwf.
  split; [by eapply wf_tile_weaken | by apply content_weaken].
Qed.

Lemma render_keeps_caches_witness :
  exists ops hp',
    render Demo.screen_24x80 Sample.renderer1 Sample.heap1 = Some (ops, hp')
    /\ Sample.heap1 ⊆ hp'
    /\ forall t, wf_tile Sample.heap1 t ->
         wf_tile hp' t /\ content hp' t = content Sample.heap1 t.
Proof.
  destruct (render_defined Demo.screen_24x80 Sample.renderer1 Sample.heap1)
    as (ops & hp' & Hrender); [done..|].
  exists ops, hp'. split; [exact Hrender|].
  exact (render_keeps_caches Demo.screen_24x80 Sample.renderer1 Sample.heap1
           ops hp' Hrender).
Defined.

(** ** The loop of [run_viewer] *)










(** X7.  A turn of the loop in which no key is read and no tile reports a
    change, entered with the redraw flag down, draws nothing and leaves the
    viewer as it was. *)
Theorem idle_turn_does_nothing (w : World) (scr : Screen) (v : Viewer) :
  Forall (fun t => update w t (store v) = Ret (false, t, store v))
         (tiles (renderer v)) ->
  loop_turn w scr KeyOther v false = Fine (Some v, []).
Proof.
  intros Hidle.
  assert (Hpoll : forall ts, Forall (fun t => update w t (store v)
                                           = Ret (false, t, store v)) ts ->
                  poll w ts (store v) false = Ret (false, ts, store v)).
  { induction ts as [|t ts IH]; [done|]. intros [Ht Hts]%Forall_cons.
    cbn [poll]. rewrite Ht. cbn. by rewrite (IH Hts). }
  unfold loop_turn. rewrite (Hpoll _ Hidle). cbn.
  by destruct v as [[ts r c lc] hp].
Qed.

Lemma idle_turn_does_nothing_witness :
  loop_turn Sample.fs_present Demo.screen_24x80 KeyOther
    {| renderer := Sample.renderer1; store := Sample.heap1 |} false
  = Fine (Some {| renderer := Sample.renderer1; store := Sample.heap1 |}, []).
Proof.
  apply (idle_turn_does_nothing Sample.fs_present Demo.screen_24x80
           {| renderer := Sample.renderer1; store := Sample.heap1 |}).
  apply Forall_cons. split; [reflexivity | apply Forall_nil_2].
Defined.

(** ** The grid of [render] *)

Lemma tile_rect_bounds (rows cols h w i : Z) :
  (1 <= rows)%Z -> (1 <= cols)%Z -> (1 <= h)%Z -> (0 <= w)%Z ->
  (0 <= i)%Z ->
  (0 <= i / cols)%Z /\ (0 <= i mod cols < cols)%Z
  /\ (0 <= (h - 1) / rows)%Z /\ (rows * ((h - 1) / rows) <= h - 1)%Z
  /\ (0 <= w / cols)%Z /\ (cols * (w / cols) <= w)%Z
  /\ (i = cols * (i / cols) + i mod cols)%Z.
Proof.
  intros Hr Hc Hh Hw Hi. split_and!.
  - apply Z.div_pos; lia.
  - apply Z.mod_pos_bound; lia.
  - apply Z.mod_pos_bound; lia.
  - apply Z.div_pos; lia.
  - apply Z.mul_div_le; lia.
  - apply Z.div_pos; lia.
  - apply Z.mul_div_le; lia.
  - apply Z.div_mod; lia.
Qed.

Lemma tile_rect_window (rows cols h w i : Z) :
  (1 <= rows)%Z -> (1 <= cols)%Z -> (1 <= h)%Z -> (0 <= w)%Z ->
  (0 <= i < rows * cols)%Z ->
  exists y x th tw,
    tile_rect rows cols h w i = (y, x, th, tw)
    /\ (0 <= th)%Z /\ (0 <= tw)%Z
    /\ (0 <= y)%Z /\ (y + th <= h - 1)%Z
    /\ (0 <= x)%Z /\ (x + tw <= w)%Z.
Proof.
  intros Hr Hc Hh Hw [Hi Hlt].
  destruct (tile_rect_bounds rows cols h w i Hr Hc Hh Hw Hi)
    as (Hrow & Hcol & Hth & Hrows & Htw & Hcols & Hdm).
  do 4 eexists. split; [reflexivity|].
  assert (i / cols < rows)%Z by (apply Z.div_lt_upper_bound; lia).
  split_and!; try done; nia.
Qed.

(** X8.  On a window of [h >= 1] rows and [w >= 0] columns, with a grid of
    [rows >= 1] by [cols >= 1], the rectangle [render] gives to tile [i]
    (for [0 <= i < rows * cols]) lies inside the window and above its last
    row, which is left to the status bar. *)
Theorem tile_rect_in_window (rows cols h w i : Z) :
  (1 <= rows)%Z -> (1 <= cols)%Z -> (1 <= h)%Z -> (0 <= w)%Z ->
  (0 <= i < rows * cols)%Z ->
  exists y x th tw,
    tile_rect rows cols h w i = (y, x, th, tw)
    /\ (0 <= th)%Z /\ (0 <= tw)%Z
    /\ (0 <= y)%Z /\ (y + th <= h - 1)%Z
    /\ (0 <= x)%Z /\ (x + tw <= w)%Z.
Proof. apply tile_rect_window. Qed.

Lemma tile_rect_in_window_witness :
  exists y x th tw,
    tile_rect 2 2 24 80 3 = (y, x, th, tw)
    /\ (0 <= th)%Z /\ (0 <= tw)%Z
    /\ (0 <= y)%Z /\ (y + th <= 24 - 1)%Z
    /\ (0 <= x)%Z /\ (x + tw <= 80)%Z.
Proof. apply (tile_rect_in_window 2 2 24 80 3); lia. Defined.

(** X9.  The rectangles of two different tiles share no cell of the window
    (grid of [rows >= 1] by [cols >= 1], window of [h >= 1] rows and
    [w >= 0] columns). *)
Theorem tile_rects_do_not_overlap (rows cols h w i j : Z) :
  (1 <= rows)%Z -> (1 <= cols)%Z -> (1 <= h)%Z -> (0 <= w)%Z ->
  (0 <= i)%Z -> (0 <= j)%Z -> i <> j ->
  rects_apart (tile_rect rows cols h w i) (tile_rect rows cols h w j).
Proof.
  intros Hr Hc Hh Hw Hi Hj Hne.
  destruct (tile_rect_bounds rows cols h w i Hr Hc Hh Hw Hi)
    as (Hrow & Hcol & Hth & _ & Htw & _ & Hdm).
  destruct (tile_rect_bounds rows cols h w j Hr Hc Hh Hw Hj)
    as (Hrow' & Hcol' & _ & _ & _ & _ & Hdm').
  unfold rects_apart, tile_rect.
  destruct (Z.lt_trichotomy (i / cols) (j / cols)) as [Hlt|[Heq|Hgt]].
  - left. nia.
  - destruct (Z.lt_trichotomy (i mod cols) (j mod cols)) as [Hlt|[Heq'|Hgt]].
    + right. right. left. nia.
    + exfalso. apply Hne. rewrite Hdm, Hdm', Heq, Heq'. done.
    + right. right. right. nia.
  - right. left. nia.
Qed.

Lemma tile_rects_do_not_overlap_witness :
  rects_apart (tile_rect 2 2 24 80 1) (tile_rect 2 2 24 80 2).
Proof. apply (tile_rects_do_not_overlap 2 2 24 80 1 2); lia. Defined.

(** ** Lengths of the texts of a tile *)

Lemma len_app {A} (a b : list A) : len (a ++ b) = (len a + len b)%Z.
Proof. unfold len. rewrite length_app. lia. Qed.

Lemma len_cons {A} (c : A) (l : list A) : len (c :: l) = (1 + len l)%Z.
Proof. unfold len. cbn [length]. lia. Qed.

Lemma len_nonneg {A} (l : list A) : (0 <= len l)%Z.
Proof. unfold len. lia. Qed.

Lemma slice_to_len {A} (l : list A) (k : Z) :
  len (slice_to l k)
  = if (k <? 0)%Z then Z.max (len l + k) 0 else Z.min k (len l).
Proof.
  unfold slice_to, len. rewrite length_take.
  destruct (k <? 0)%Z eqn:Hk; lia.
Qed.

Lemma repeat_char_len (c : uchar) (n : Z) : len (repeat_char c n) = Z.max n 0.
Proof. unfold repeat_char, len. rewrite length_replicate. lia. Qed.

Lemma tile_header_len (path : string) (w idx : Z) :
  (0 <= w)%Z -> len (tile_header path w idx) = w.
Proof.
  intros Hw. unfold tile_header. cbv zeta.
  rewrite slice_to_len.
  destruct (Z.ltb_spec w 0) as [?|_]; [lia|].
  rewrite !len_app, repeat_char_len. unfold len. cbn [length]. lia.
Qed.

(** X10.  The top border of a tile is exactly as wide as the tile, for every
    width [w >= 0], every file name (long names are cut) and every tile
    index. *)
Theorem tile_header_width (path : string) (w idx : Z) :
  (0 <= w)%Z -> len (tile_header path w idx) = w.
Proof. apply tile_header_len. Qed.

Lemma tile_header_width_witness :
  len (tile_header Sample.a_log 7 0) = 7%Z.
Proof. apply (tile_header_width Sample.a_log 7 0). lia. Defined.

(** ** The calls of a tile *)

Lemma attempt_app (scr : Screen) (a b : list draw_op) :
  attempt scr (a ++ b) =
  if snd (attempt scr a)
  then (a ++ fst (attempt scr b), snd (attempt scr b))
  else attempt scr a.
Proof.
  induction a as [|c a IH]; cbn [attempt app].
  { cbn. by destruct (attempt scr b). }
  destruct (op_raises scr c); [done|].
  rewrite IH. destruct (attempt scr a) as [made ok]. cbn.
  destruct ok; [|done]. by destruct (attempt scr b).
Qed.

Lemma attempt_ok_all (scr : Screen) (cs : list draw_op) :
  snd (attempt scr cs) = true -> fst (attempt scr cs) = cs.
Proof.
  induction cs as [|c cs IH]; [done|]. cbn [attempt].
  destruct (op_raises scr c); [done|].
  destruct (attempt scr cs) as [made ok]. cbn in *. intros ->. by rewrite IH.
Qed.

Lemma attempt_no_raise (scr : Screen) (cs : list draw_op) :
  Forall (fun c => op_raises scr c = false) cs -> attempt scr cs = (cs, true).
Proof.
  induction 1 as [|c cs Hc _ IH]; [done|]. cbn [attempt]. by rewrite Hc, IH.
Qed.

(** The calls made stop at the first that raises. *)
Lemma attempt_stops (scr : Screen) (cs : list draw_op) :
  exists rest,
    cs = fst (attempt scr cs) ++ rest
    /\ Forall (fun c => op_raises scr c = false)
              (removelast (fst (attempt scr cs)))
    /\ (snd (attempt scr cs) = true -> rest = []
        /\ Forall (fun c => op_raises scr c = false) cs)
    /\ (snd (attempt scr cs) = false ->
        exists c, last (fst (attempt scr cs)) = Some c
                  /\ op_raises scr c = true).
Proof.
  induction cs as [|c cs (rest & Hcs & Hinit & Hok & Hfail)].
  { exists []. cbn. by split_and!. }
  cbn [attempt]. destruct (op_raises scr c) eqn:Hc.
  - exists cs. cbn. split_and!; try done. intros _. by exists c.
  - destruct (attempt scr cs) as [made ok] eqn:Ha. cbn in *.
    exists rest. split_and!.
    + by rewrite Hcs at 1.
    + destruct made as [|d made]; [done|]. by apply Forall_cons.
    + intros Hk. destruct (Hok Hk) as [-> Hall].
      split; [done|]. by apply Forall_cons.
    + intros Hk. destruct (Hfail Hk) as (d & Hlast & Hd).
      exists d. split; [|done]. by destruct made.
Qed.

Lemma draw_tile_calls (scr : Screen) (tile : TailTile) (y x h w idx : Z)
    (hp : heap) :
  fst (_draw_tile scr tile y x h w idx hp)
  = fst (attempt scr (tile_head_calls (filepath tile) y x w idx
                      ++ tile_body_calls (content hp tile) y x h w)).
Proof.
  unfold _draw_tile. rewrite attempt_app.
  pose proof (attempt_ok_all scr (tile_head_calls (filepath tile) y x w idx))
    as Hall.
  destruct (attempt scr (tile_head_calls (filepath tile) y x w idx))
    as [made ok]. cbn [snd fst] in *.
  destruct ok; [|done]. rewrite (Hall eq_refl).
  unfold get_content.
  pose proof (deref_alloc (content hp tile) hp) as Hd.
  destruct (alloc (content hp tile) hp) as [r hp1]. cbn in *. by rewrite Hd.
Qed.

(** X11.  [_draw_tile] guards all its calls with one [try]: the calls made
    are the first calls of the tile's sequence (border, path row, content
    rows, bottom border), none of them but the last raised, and when a call
    of the sequence raises, the last call made is the one that raised and
    nothing of the tile is drawn after it.  When one of the four calls before
    [get_content] raises, the store is left as it was. *)
Theorem draw_tile_stops_at_error (scr : Screen) (tile : TailTile)
    (y x h w idx : Z) (hp : heap) :
  let calls := tile_head_calls (filepath tile) y x w idx
               ++ tile_body_calls (content hp tile) y x h w in
  let made := fst (_draw_tile scr tile y x h w idx hp) in
  exists rest,
    calls = made ++ rest
    /\ Forall (fun c => op_raises scr c = false) (removelast made)
    /\ (Forall (fun c => op_raises scr c = false) calls -> rest = [])
    /\ (Exists (fun c => op_raises scr c = true) calls ->
        exists c, last made = Some c /\ op_raises scr c = true)
    /\ (Exists (fun c => op_raises scr c = true)
               (tile_head_calls (filepath tile) y x w idx) ->
        snd (_draw_tile scr tile y x h w idx hp) = hp).
Proof.
  intros calls made. subst made. rewrite draw_tile_calls. fold calls.
  destruct (attempt_stops scr calls) as (rest & Hcs & Hinit & Hok & Hfail).
  exists rest. split_and!; [done|done| | |].
  - intros Hall. rewrite (attempt_no_raise _ _ Hall) in Hok.
    by destruct (Hok eq_refl).
  - intros Hex. apply Hfail.
    destruct (snd (attempt scr calls)) eqn:Hk; [|done].
    destruct (Hok eq_refl) as [_ Hall].
    apply Exists_exists in Hex as (c & Hin & Hc).
    rewrite Forall_forall in Hall. by rewrite (Hall c Hin) in Hc.
  - intros Hex. unfold _draw_tile.
    destruct (attempt_stops scr (tile_head_calls (filepath tile) y x w idx))
      as (rest' & _ & _ & Hok' & _).
    destruct (attempt scr (tile_head_calls (filepath tile) y x w idx))
      as [made ok]. cbn [snd] in Hok'.
    destruct ok; [|done].
    destruct (Hok' eq_refl) as [_ Hall].
    apply Exists_exists in Hex as (c & Hin & Hc).
    rewrite Forall_forall in Hall. by rewrite (Hall c Hin) in Hc.
Qed.

Lemma draw_tile_stops_at_error_witness :
  snd (_draw_tile Demo.screen_broken Sample.tile1 0 0 23 80 0 Sample.heap1)
  = Sample.heap1.
Proof.
  destruct (draw_tile_stops_at_error Demo.screen_broken Sample.tile1 0 0 23 80 0
              Sample.heap1) as (rest & _ & _ & _ & _ & Hstore).
  apply Hstore. apply Exists_cons_hd. reflexivity.
Defined.

Example draw_tile_on_broken_screen :
  _draw_tile Demo.screen_broken Sample.tile1 0 0 23 80 0 Sample.heap1
  = ([OpAddstr 0 0 (tile_header Sample.a_log 80 0) A_DIM], Sample.heap1).
Proof. reflexivity. Qed.

Lemma slice_to_le {A} (l : list A) (k : Z) :
  (0 <= k)%Z -> (len (slice_to l k) <= k)%Z.
Proof.
  intros Hk. rewrite slice_to_len.
  destruct (Z.ltb_spec k 0); unfold len; lia.
Qed.

Lemma tile_footer_len (w : Z) : (2 <= w)%Z -> len (tile_footer w) = w.
Proof.
  intros Hw. unfold tile_footer. rewrite !len_app, repeat_char_len.
  unfold len. cbn [length]. lia.
Qed.

Lemma head_calls_inside (path : string) (y x h w idx : Z) :
  (2 <= h)%Z -> (3 <= w)%Z ->
  Forall (op_inside y x h w) (tile_head_calls path y x w idx).
Proof.
  intros Hh Hw. unfold tile_head_calls.
  pose proof (tile_header_len path w idx ltac:(lia)) as Hhead.
  assert (Hpath : (len (tile_path path w) <= w - 3)%Z)
    by (apply slice_to_le; lia).
  repeat apply Forall_cons_2; [..|apply Forall_nil_2]; cbn [op_inside];
    change (len [BoxV]) with 1%Z; lia.
Qed.

Lemma row_calls_inside (content : list string) (y x h w : Z) (rows : list Z) :
  (3 <= w)%Z -> Forall (fun row => 0 <= row)%Z rows ->
  Forall (op_inside y x h w) (tile_row_calls content y x h w rows).
Proof.
  intros Hw. induction 1 as [|row rows Hrow _ IH]; [apply Forall_nil_2|].
  cbn [tile_row_calls].
  destruct (Z.leb_spec (y + h - 1) (y + 2 + row)) as [_|Hlt];
    [apply Forall_nil_2|].
  apply Forall_app. split.
  { apply Forall_cons_2; [|apply Forall_nil_2]. cbn [op_inside].
    change (len [BoxV]) with 1%Z. lia. }
  apply Forall_app. split.
  { destruct (row <? len content)%Z; [|apply Forall_nil_2].
    destruct (content !! Z.to_nat row) as [line|]; [|apply Forall_nil_2].
    apply Forall_cons_2; [|apply Forall_nil_2]. cbn [op_inside].
    pose proof (slice_to_le ([Chr " "] ++ text_of_string line) (w - 3)
                  ltac:(lia)). lia. }
  apply Forall_cons_2; [|exact IH]. cbn [op_inside].
  change (len [BoxV]) with 1%Z. lia.
Qed.

Lemma body_calls_inside (content : list string) (y x h w : Z) :
  (2 <= h)%Z -> (3 <= w)%Z ->
  Forall (op_inside y x h w) (tile_body_calls content y x h w).
Proof.
  intros Hh Hw. unfold tile_body_calls. apply Forall_app. split.
  - apply row_calls_inside; [done|]. apply Forall_forall.
    intros row Hin%elem_of_seqZ. lia.
  - apply Forall_cons_2; [|apply Forall_nil_2]. cbn [op_inside].
    rewrite tile_footer_len by lia. lia.
Qed.

Lemma draw_tile_inside (scr : Screen) (tile : TailTile) (y x h w idx : Z)
    (hp : heap) :
  (2 <= h)%Z -> (3 <= w)%Z ->
  Forall (op_inside y x h w) (fst (_draw_tile scr tile y x h w idx hp)).
Proof.
  intros Hh Hw. rewrite draw_tile_calls.
  destruct (attempt_stops scr (tile_head_calls (filepath tile) y x w idx
                               ++ tile_body_calls (content hp tile) y x h w))
    as (rest & Hcs & _).
  assert (Hall : Forall (op_inside y x h w)
                   (tile_head_calls (filepath tile) y x w idx
                    ++ tile_body_calls (content hp tile) y x h w)).
  { apply Forall_app. split;
      [by apply head_calls_inside | by apply body_calls_inside]. }
  rewrite Hcs in Hall. by apply Forall_app in Hall as [? _].
Qed.

(** X12.  For a tile of at least two rows and three columns, every [addstr]
    call of [_draw_tile] starts inside the tile's rectangle, on a row of
    [y .. y+h-1] and at a column from [x] on, and is given a text with no
    more characters than there are columns from that one to the right edge
    [x+w-1], whatever the path, the cached lines and the calls that raise.
    The bound is on the number of characters: a text in which every
    character takes one column of the terminal ends inside the rectangle. *)
Theorem draw_tile_stays_inside (scr : Screen) (tile : TailTile)
    (y x h w idx : Z) (hp : heap) :
  (2 <= h)%Z -> (3 <= w)%Z ->
  Forall (op_inside y x h w) (fst (_draw_tile scr tile y x h w idx hp)).
Proof. apply draw_tile_inside. Qed.

Lemma draw_tile_stays_inside_witness :
  Forall (op_inside 0 40 11 40)
    (fst (_draw_tile Demo.screen_24x80 Sample.tile1 0 40 11 40 1 Sample.heap1)).
Proof.
  apply (draw_tile_stays_inside Demo.screen_24x80 Sample.tile1 0 40 11 40 1
           Sample.heap1); lia.
Defined.

(** A tile two columns wide does write outside: the path row is cut with
    [[:w-3]], which for [w = 2] only drops the last character. *)
Example draw_tile_too_narrow :
  ~ Forall (op_inside 0 0 5 2)
      (fst (_draw_tile Demo.screen_24x80 Sample.tile1 0 0 5 2 0 Sample.heap1)).
Proof.
  intros Hall. apply Forall_cons in Hall as [_ Hall].
  apply Forall_cons in Hall as [_ Hall].
  apply Forall_cons in Hall as [(_ & _ & Hlen) _].
  vm_compute in Hlen. by apply Hlen.
Qed.

(** ** Which cached lines a tile shows *)

Lemma shown_lines_app (a b : list draw_op) :
  shown_lines (a ++ b) = shown_lines a ++ shown_lines b.
Proof.
  induction a as [|c a IH]; [done|].
  destruct c as [|y x s [| |]|]; cbn; by rewrite ?IH.
Qed.

Lemma row_calls_shown (content : list string) (y x h w : Z) (n : nat) :
  forall k : Z,
    (0 <= k)%Z -> (k + Z.of_nat n <= h - 3)%Z ->
    shown_lines (tile_row_calls content y x h w (seqZ k (Z.of_nat n)))
    = shown_line y x w <$> zip (seqZ k (Z.of_nat n)) (drop (Z.to_nat k) content).
Proof.
  induction n as [|n IH]; intros k Hk Hfit; [done|].
  rewrite seqZ_cons by lia.
  replace (Z.pred (Z.of_nat (S n))) with (Z.of_nat n) by lia.
  cbn [tile_row_calls].
  destruct (Z.leb_spec (y + h - 1) (y + 2 + k)) as [?|_]; [lia|].
  rewrite !shown_lines_app. cbn [shown_lines app].
  rewrite (IH (Z.succ k)) by lia.
  replace (Z.to_nat (Z.succ k)) with (S (Z.to_nat k)) by lia.
  destruct (Z.ltb_spec k (len content)) as [Hlt|Hge].
  - destruct (lookup_lt_is_Some_2 content (Z.to_nat k)) as [line Hline];
      [unfold len in Hlt; lia|].
    rewrite Hline. rewrite (drop_S _ _ _ Hline). cbn.
    unfold shown_line at 2. done.
  - rewrite !drop_ge by (unfold len in Hge; lia).
    cbn. by rewrite zip_with_nil_r.
Qed.

Lemma body_calls_shown (content : list string) (y x h w : Z) :
  shown_lines (tile_body_calls content y x h w)
  = shown_line y x w <$> zip (seqZ 0 (h - 3)) content.
Proof.
  unfold tile_body_calls. rewrite shown_lines_app. cbn [shown_lines].
  rewrite app_nil_r.
  destruct (Z.le_gt_cases 0 (h - 3)) as [Hpos|Hneg].
  - rewrite <- (Z2Nat.id (h - 3)) by done.
    rewrite row_calls_shown by lia. by rewrite drop_0.
  - by rewrite !seqZ_nil by lia.
Qed.

(** X13.  On a window that takes every call, a tile of height [h] shows the
    first [h - 3] cached lines, one per row from row [y + 2] on, each after
    one blank and cut to [w - 3] characters.  When the tile is too low for
    the requested count, the lines left out are the last ones of the cache,
    the newest of the file. *)
Theorem draw_tile_shows_first_rows (scr : Screen) (tile : TailTile)
    (y x h w idx : Z) (hp : heap) :
  (forall cy cx s, addstr_raises scr cy cx s = false) ->
  shown_lines (fst (_draw_tile scr tile y x h w idx hp))
  = shown_line y x w <$> zip (seqZ 0 (h - 3)) (content hp tile).
Proof.
  intros Hscr. rewrite draw_tile_calls.
  rewrite attempt_no_raise.
  - cbn [fst]. rewrite shown_lines_app, body_calls_shown. done.
  - apply Forall_forall. intros [|cy cx s a|] _; cbn; [done|apply Hscr|done].
Qed.

Lemma draw_tile_shows_first_rows_witness :
  shown_lines
    (fst (_draw_tile Demo.screen_24x80 Sample.tile1 0 0 5 80 0 Sample.heap1))
  = shown_line 0 0 80 <$> zip (seqZ 0 (5 - 3)) (content Sample.heap1 Sample.tile1).
Proof.
  apply (draw_tile_shows_first_rows Demo.screen_24x80 Sample.tile1 0 0 5 80 0
           Sample.heap1).
  reflexivity.
Defined.

Example draw_tile_drops_newest_line :
  content Sample.heap1 Sample.tile1 = ["x"; "y"; "z"]
  /\ shown_lines
       (fst (_draw_tile Demo.screen_24x80 Sample.tile1 0 0 5 80 0 Sample.heap1))
     = [(2%Z, 1%Z, [Chr " "; Chr "x"]); (3%Z, 1%Z, [Chr " "; Chr "y"])].
Proof. split; reflexivity. Qed.

(** ** The status bar *)

Lemma status_calls_shape (count h w : Z) :
  (1 <= w)%Z ->
  exists s1 rest,
    status_calls count h w = OpAddstr (h - 1) 0 s1 A_REVERSE :: rest
    /\ (rest = [] /\ len s1 = (w - 1)%Z
        \/ exists s2,
             rest = [OpAddstr (h - 1) (len s1) s2 A_REVERSE]
             /\ (len s1 + len s2 = w - 1)%Z).
Proof.
  intros Hw. unfold status_calls. cbv zeta. do 2 eexists. split; [reflexivity|].
  pose proof (slice_to_len (status_text count) (w - 1)) as Hlen.
  destruct (Z.ltb_spec (w - 1) 0) as [?|_]; [lia|].
  destruct (Z.ltb_spec (len (status_text count)) w) as [Hshort|Hlong].
  - right. eexists. split.
    + f_equal. f_equal. rewrite Hlen. lia.
    + rewrite repeat_char_len, Hlen. lia.
  - left. split; [done|]. rewrite Hlen. lia.
Qed.

(** X14.  On a window of [w >= 1] columns the status bar is written on the
    last row from column 0 and covers exactly the columns [0 .. w-2]: the
    text cut to [w - 1] characters, then blanks up to column [w - 2] when the
    text is shorter than the window.  The last column is never written. *)
Theorem status_bar_columns (count h w : Z) :
  (1 <= w)%Z ->
  exists s1 rest,
    status_calls count h w = OpAddstr (h - 1) 0 s1 A_REVERSE :: rest
    /\ (rest = [] /\ len s1 = (w - 1)%Z
        \/ exists s2,
             rest = [OpAddstr (h - 1) (len s1) s2 A_REVERSE]
             /\ (len s1 + len s2 = w - 1)%Z).
Proof. apply status_calls_shape. Qed.

Lemma status_bar_columns_witness :
  exists s1 rest,
    status_calls 10 24 80 = OpAddstr (24 - 1) 0 s1 A_REVERSE :: rest
    /\ (rest = [] /\ len s1 = (80 - 1)%Z
        \/ exists s2,
             rest = [OpAddstr (24 - 1) (len s1) s2 A_REVERSE]
             /\ (len s1 + len s2 = 80 - 1)%Z).
Proof. apply (status_bar_columns 10 24 80). lia. Defined.

Lemma status_calls_inside (count h w : Z) :
  (1 <= w)%Z -> Forall (op_inside (h - 1) 0 1 (w - 1)) (status_calls count h w).
Proof.
  intros Hw.
  destruct (status_calls_shape count h w Hw) as (s1 & rest & -> & Hrest).
  pose proof (len_nonneg s1).
  destruct Hrest as [[-> Hl]|(s2 & -> & Hl)].
  - apply Forall_cons_2; [|apply Forall_nil_2]. cbn. lia.
  - pose proof (len_nonneg s2).
    repeat apply Forall_cons_2; [..|apply Forall_nil_2]; cbn; lia.
Qed.

(** ** A whole [render] *)

Lemma op_inside_weaken (y x h w y' x' h' w' : Z) (op : draw_op) :
  (y' <= y)%Z -> (y + h <= y' + h')%Z -> (x' <= x)%Z -> (x + w <= x' + w')%Z ->
  op_inside y x h w op -> op_inside y' x' h' w' op.
Proof. destruct op as [|cy cx s a|]; cbn; [done| |done]. lia. Qed.

Lemma attempt_Forall (P : draw_op -> Prop) (scr : Screen) (cs : list draw_op) :
  Forall P cs -> Forall P (fst (attempt scr cs)).
Proof.
  intros Hall. destruct (attempt_stops scr cs) as (rest & Hcs & _).
  rewrite Hcs in Hall. by apply Forall_app in Hall as [? _].
Qed.

Lemma draw_tiles_inside (scr : Screen) (rows cols h w : Z) (ts : list TailTile) :
  (1 <= rows)%Z -> (1 <= cols)%Z ->
  (2 <= (h - 1) / rows)%Z -> (3 <= w / cols)%Z ->
  forall (i : Z) (hp : heap),
    (0 <= i)%Z -> (i + len ts <= rows * cols)%Z ->
    Forall (op_inside 0 0 (h - 1) w) (fst (draw_tiles scr rows cols h w ts i hp)).
Proof.
  intros Hr Hc Hth Htw.
  assert (Hh : (1 <= h)%Z).
  { destruct (Z.le_gt_cases 1 h) as [?|Hlt]; [done|].
    assert ((h - 1) / rows < 0)%Z by (apply Z.div_lt_upper_bound; lia). lia. }
  assert (Hw : (0 <= w)%Z).
  { destruct (Z.le_gt_cases 0 w) as [?|Hlt]; [done|].
    assert (w / cols < 0)%Z by (apply Z.div_lt_upper_bound; lia). lia. }
  induction ts as [|t ts IH]; intros i hp Hi Hfit; [apply Forall_nil_2|].
  rewrite len_cons in Hfit. pose proof (len_nonneg ts).
  cbn [draw_tiles].
  destruct (tile_rect_window rows cols h w i Hr Hc Hh Hw ltac:(lia))
    as (y & x & th & tw & Hrect & Hth0 & Htw0 & Hy & Hyh & Hx & Hxw).
  rewrite Hrect.
  assert (th = ((h - 1) / rows)%Z /\ tw = (w / cols)%Z) as [Eth Etw].
  { unfold tile_rect in Hrect. by injection Hrect as _ _ <- <-. }
  pose proof (draw_tile_inside scr t y x th tw i hp ltac:(lia) ltac:(lia))
    as Htile.
  destruct (_draw_tile scr t y x th tw i hp) as [ops hp1].
  specialize (IH (i + 1)%Z hp1 ltac:(lia) ltac:(lia)).
  destruct (draw_tiles scr rows cols h w ts (i + 1) hp1) as [ops' hp2].
  cbn [fst] in *. apply Forall_app. split; [|done].
  eapply Forall_impl; [exact Htile|]. intros op.
  apply op_inside_weaken; lia.
Qed.

(** X15.  When every tile has a cell of the grid ([len(tiles) <= rows *
    cols]) and the window gives each tile at least two rows and three
    columns, every [addstr] call [render] makes between [clear] and
    [refresh] starts in the window and is given a text with no more
    characters than there are columns left: the calls of the tiles start in
    the rows above the last one, with at most as many characters as columns
    up to the right edge of the window, and the calls of the status bar
    start in the last row, with at most as many characters as columns before
    the last one.  The bound is on the number of characters, as in X12. *)
Theorem render_stays_in_window (scr : Screen) (r : TileRenderer) (hp : heap) :
  (1 <= rows r)%Z -> (1 <= cols r)%Z ->
  (len (tiles r) <= rows r * cols r)%Z ->
  (2 <= (fst (getmaxyx scr) - 1) / rows r)%Z ->
  (3 <= snd (getmaxyx scr) / cols r)%Z ->
  exists tile_ops status_ops hp',
    render scr r hp
      = Some ([OpClear] ++ tile_ops ++ status_ops ++ [OpRefresh], hp')
    /\ Forall (op_inside 0 0 (fst (getmaxyx scr) - 1) (snd (getmaxyx scr)))
              tile_ops
    /\ Forall (op_inside (fst (getmaxyx scr) - 1) 0 1 (snd (getmaxyx scr) - 1))
              status_ops.
Proof.
  intros Hr Hc Hfit Hth Htw. unfold render.
  destruct (getmaxyx scr) as [h w]. cbn [fst snd] in *.
  destruct (Z.eqb_spec (rows r) 0) as [?|_]; [lia|].
  destruct (Z.eqb_spec (cols r) 0) as [?|_]; [lia|]. cbn [orb].
  pose proof (draw_tiles_inside scr (rows r) (cols r) h w (tiles r)
                Hr Hc Hth Htw 0 hp ltac:(lia) ltac:(lia)) as Htiles.
  destruct (draw_tiles scr (rows r) (cols r) h w (tiles r) 0 hp) as [ops hp'].
  exists ops, (_draw_status scr r h w), hp'. split_and!; [done|done|].
  unfold _draw_status. apply attempt_Forall, status_calls_inside.
  assert (w / cols r <= w)%Z; [|lia].
  destruct (Z.le_gt_cases 0 w) as [?|Hlt].
  - apply Z.div_le_upper_bound; nia.
  - assert (w / cols r < 0)%Z by (apply Z.div_lt_upper_bound; lia). lia.
Qed.

Lemma render_stays_in_window_witness :
  exists tile_ops status_ops hp',
    render Demo.screen_24x80 Sample.renderer1 Sample.heap1
      = Some ([OpClear] ++ tile_ops ++ status_ops ++ [OpRefresh], hp')
    /\ Forall (op_inside 0 0 (fst (getmaxyx Demo.screen_24x80) - 1)
                 (snd (getmaxyx Demo.screen_24x80))) tile_ops
    /\ Forall (op_inside (fst (getmaxyx Demo.screen_24x80) - 1) 0 1
                 (snd (getmaxyx Demo.screen_24x80) - 1)) status_ops.
Proof.
  apply (render_stays_in_window Demo.screen_24x80 Sample.renderer1 Sample.heap1);
    vm_compute; congruence.
Defined.

(** [render] with no row or no column in the grid divides by zero. *)
Example render_zero_division :
  render Demo.screen_24x80 (TileRenderer_init [Sample.tile1] (0, 1)%Z)
    Sample.heap1 = None.
Proof. reflexivity. Qed.

(** ** [prompt_setup] *)

Lemma layouts_lookup (choice : string) (l : Z * Z) :
  LAYOUTS !! choice = Some l ->
  l ∈ [(1, 1)%Z; (2, 1)%Z; (1, 2)%Z; (2, 2)%Z].
Proof.
  unfold LAYOUTS. intros Hl.
  repeat (apply lookup_insert_Some in Hl as [[_ <-]|[_ Hl]];
          [set_solver|]).
  by rewrite lookup_empty in Hl.
Qed.

Lemma layouts_default : LAYOUTS !! "1" = Some (1, 1)%Z.
Proof. reflexivity. Qed.

Lemma chosen_layout_listed (choice : string) :
  match LAYOUTS !! choice with
  | Some l => l
  | None => default (1, 1)%Z (LAYOUTS !! "1")
  end ∈ [(1, 1)%Z; (2, 1)%Z; (1, 2)%Z; (2, 2)%Z].
Proof.
  destruct (LAYOUTS !! choice) as [l|] eqn:Hl.
  - by eapply layouts_lookup.
  - rewrite layouts_default. set_solver.
Qed.

Lemma read_paths_props (lib : StrLib) (P : string -> Prop) (k : nat) :
  (forall s, is_empty (strip lib s) = false -> P (expanduser lib (strip lib s))) ->
  forall (acc : list string) (stdin : list stdin_event)
         (paths : list string) (rest : list stdin_event),
    read_paths lib k acc stdin = PathsRead paths rest ->
    (length acc <= length paths <= length acc + k)%nat
    /\ (1 <= k -> 1 <= length paths)%nat
    /\ (Forall P acc -> Forall P paths).
Proof.
  intros HP. induction k as [|k IH]; intros acc stdin paths rest Hrun.
  { cbn in Hrun. injection Hrun as <- _. split_and!; [lia..|done]. }
  cbn [read_paths] in Hrun.
  destruct stdin as [|[s|] stdin]; cbn [input] in Hrun; [done| |done].
  destruct (is_empty (strip lib s)) eqn:Hs.
  - destruct acc as [|a acc]; [done|]. cbn in Hrun. injection Hrun as <- _.
    split_and!; [lia|lia|cbn; lia|done].
  - apply IH in Hrun as (Hlen & _ & Hall).
    rewrite length_app in Hlen. cbn in Hlen.
    split_and!; [lia..|].
    intros Hacc. apply Hall, Forall_app. split; [done|].
    apply Forall_cons_2; [by apply HP | apply Forall_nil_2].
Qed.

Lemma prompt_setup_bounds (lib : StrLib) (stdin : list stdin_event)
    (paths : list string) (layout : Z * Z) (n : Z) :
  prompt_setup lib stdin = SetupReturn (Some (paths, layout, n)) ->
  layout ∈ [(1, 1)%Z; (2, 1)%Z; (1, 2)%Z; (2, 2)%Z]
  /\ (1 <= len paths <= fst layout * snd layout)%Z
  /\ (1 <= n <= 100)%Z
  /\ Forall (fun p => exists s, is_empty (strip lib s) = false
                                /\ p = expanduser lib (strip lib s)) paths.
Proof.
  unfold prompt_setup. destruct stdin as [|[c|] stdin]; cbn [input]; [done| |done].
  cbv zeta. pose proof (chosen_layout_listed (strip lib c)) as Hlay.
  set (lay := match LAYOUTS !! strip lib c with
              | Some l => l
              | None => default (1, 1)%Z (LAYOUTS !! "1")
              end) in *.
  destruct (read_paths lib (Z.to_nat (fst lay * snd lay)) [] stdin)
    as [ps rest| |] eqn:Hpaths; [|done..].
  apply (read_paths_props lib
           (fun p => exists s, is_empty (strip lib s) = false
                               /\ p = expanduser lib (strip lib s)))
    in Hpaths as (Hlen & Hone & Hall); [|by eauto].
  assert (Hmax : (1 <= fst lay * snd lay)%Z).
  { clear -Hlay. set_unfold in Hlay.
    destruct Hlay as [->|[->|[->|[->|[]]]]]; cbn; lia. }
  assert (Hres : forall m, (1 <= clamp m 1 100 <= 100)%Z)
    by (intros m; apply clamp_range; lia).
  destruct rest as [|[s|] rest]; cbn [input]; [done| |done].
  intros Hret.
  assert (paths = ps /\ layout = lay /\ exists m, n = clamp m 1 100)
    as (-> & -> & m & ->).
  { destruct (isdigit lib (strip lib s)).
    - destruct (int_of lib (strip lib s)) as [m|]; [|done].
      injection Hret as <- <- <-. eauto.
    - injection Hret as <- <- <-. eauto. }
  cbn [length] in Hlen. unfold len.
  split_and!; [done|lia|lia|apply Hres|apply Hres|by apply Hall].
Qed.

(** X16.  Whatever is typed, when [prompt_setup] returns a configuration its
    layout is one of the four of [LAYOUTS], it names at least one file and
    no more files than the layout has tiles, every path is the expansion of
    a line that was not blank, and the line count is between 1 and 100. *)
Theorem prompt_setup_result (lib : StrLib) (stdin : list stdin_event)
    (paths : list string) (layout : Z * Z) (n : Z) :
  prompt_setup lib stdin = SetupReturn (Some (paths, layout, n)) ->
  layout ∈ [(1, 1)%Z; (2, 1)%Z; (1, 2)%Z; (2, 2)%Z]
  /\ (1 <= len paths <= fst layout * snd layout)%Z
  /\ (1 <= n <= 100)%Z
  /\ Forall (fun p => exists s, is_empty (strip lib s) = false
                                /\ p = expanduser lib (strip lib s)) paths.
Proof. apply prompt_setup_bounds. Qed.

Lemma prompt_setup_result_witness :
  prompt_setup Demo.ascii_lib Demo.typed
    = SetupReturn (Some (["/tmp/a.log"; "/tmp/b.log"], (1, 2)%Z, 100%Z))
  /\ (1, 2)%Z ∈ [(1, 1)%Z; (2, 1)%Z; (1, 2)%Z; (2, 2)%Z]
  /\ (1 <= len ["/tmp/a.log"; "/tmp/b.log"] <= fst (1, 2)%Z * snd (1, 2)%Z)%Z
  /\ (1 <= 100 <= 100)%Z
  /\ Forall (fun p => exists s, is_empty (strip Demo.ascii_lib s) = false
                                /\ p = expanduser Demo.ascii_lib
                                         (strip Demo.ascii_lib s))
            ["/tmp/a.log"; "/tmp/b.log"].
Proof.
  split; [reflexivity|].
  apply (prompt_setup_result Demo.ascii_lib Demo.typed
           ["/tmp/a.log"; "/tmp/b.log"] (1, 2)%Z 100).
  reflexivity.
Defined.

(** X17.  A blank answer to the first path prompt ends the setup with
    [None], whatever the layout choice was and whatever is typed after it. *)
Theorem prompt_setup_blank_first_path (lib : StrLib) (choice path : string)
    (rest : list stdin_event) :
  is_empty (strip lib path) = true ->
  prompt_setup lib (Line choice :: Line path :: rest) = SetupReturn None.
Proof.
  intros Hblank. unfold prompt_setup. cbn [input]. cbv zeta.
  pose proof (chosen_layout_listed (strip lib choice)) as Hlay.
  set (lay := match LAYOUTS !! strip lib choice with
              | Some l => l
              | None => default (1, 1)%Z (LAYOUTS !! "1")
              end) in *.
  assert (exists k, Z.to_nat (fst lay * snd lay) = S k) as [k ->].
  { exists (Z.to_nat (fst lay * snd lay) - 1)%nat.
    clear -Hlay. set_unfold in Hlay.
    destruct Hlay as [->|[->|[->|[->|[]]]]]; cbn; lia. }
  cbn [read_paths input]. by rewrite Hblank.
Qed.

Lemma prompt_setup_blank_first_path_witness :
  prompt_setup Demo.ascii_lib (Line "4" :: Line "   " :: Demo.typed)
  = SetupReturn None.
Proof.
  apply (prompt_setup_blank_first_path Demo.ascii_lib "4" "   " Demo.typed).
  reflexivity.
Defined.

(** X18.  A layout answer that is not a key of [LAYOUTS] counts as [1]: the
    setup then asks for one path only and returns the 1 by 1 layout. *)
Theorem prompt_setup_unknown_layout (lib : StrLib) (choice : string)
    (rest : list stdin_event) (paths : list string) (layout : Z * Z) (n : Z) :
  LAYOUTS !! strip lib choice = None ->
  prompt_setup lib (Line choice :: rest) = SetupReturn (Some (paths, layout, n)) ->
  layout = (1, 1)%Z /\ length paths = 1%nat.
Proof.
  intros Hnone Hret.
  destruct (prompt_setup_bounds _ _ _ _ _ Hret) as (_ & Hlen & _).
  unfold prompt_setup in Hret. cbn [input] in Hret. cbv zeta in Hret.
  rewrite Hnone, layouts_default in Hret.
  change (default (1, 1)%Z (Some (1, 1)%Z)) with (1, 1)%Z in Hret.
  cbn [fst snd] in Hret.
  destruct (read_paths lib (Z.to_nat (1 * 1)) [] rest) as [ps r| |]; [|done..].
  destruct (input r) as [s r'| |]; [|done..].
  assert (layout = (1, 1)%Z) as ->.
  { destruct (isdigit lib (strip lib s)); [|by simplify_eq].
    destruct (int_of lib (strip lib s)); by simplify_eq. }
  split; [done|]. unfold len in Hlen. cbn in Hlen. lia.
Qed.

Lemma prompt_setup_unknown_layout_witness :
  prompt_setup Demo.ascii_lib [Line "seven"; Line "/tmp/a.log"; Line "ten"]
    = SetupReturn (Some (["/tmp/a.log"], (1, 1)%Z, 10%Z))
  /\ (1, 1)%Z = (1, 1)%Z /\ length ["/tmp/a.log"] = 1%nat.
Proof.
  split; [reflexivity|].
  apply (prompt_setup_unknown_layout Demo.ascii_lib "seven"
           [Line "/tmp/a.log"; Line "ten"] ["/tmp/a.log"] (1, 1)%Z 10);
    reflexivity.
Defined.

(** ** Holding a key down *)

Lemma adjust_lines_up (r : TileRenderer) (k : nat) :
  (1 <= line_count r <= 100)%Z ->
  line_count (Nat.iter k (fun r' => adjust_lines r' 1) r)
  = Z.min (line_count r + Z.of_nat k) 100.
Proof.
  intros Hr. induction k as [|k IH]; [cbn; lia|].
  rewrite Nat.iter_succ, adjust_lines_count, IH. unfold clamp. lia.
Qed.

Lemma adjust_lines_down (r : TileRenderer) (k : nat) :
  (1 <= line_count r <= 100)%Z ->
  line_count (Nat.iter k (fun r' => adjust_lines r' (-1)) r)
  = Z.max (line_count r - Z.of_nat k) 1.
Proof.
  intros Hr. induction k as [|k IH]; [cbn; lia|].
  rewrite Nat.iter_succ, adjust_lines_count, IH. unfold clamp. lia.
Qed.

(** X20.  From a count between 1 and 100, [k] presses of [+] give the count
    plus [k], stopped at 100, and [k] presses of [-] give the count minus
    [k], stopped at 1.  So at the ceiling a [+] followed by a [-] does not
    come back to 100 but goes to 99. *)
Theorem adjust_lines_repeated (r : TileRenderer) (k : nat) :
  (1 <= line_count r <= 100)%Z ->
  line_count (Nat.iter k (fun r' => adjust_lines r' 1) r)
    = Z.min (line_count r + Z.of_nat k) 100
  /\ line_count (Nat.iter k (fun r' => adjust_lines r' (-1)) r)
     = Z.max (line_count r - Z.of_nat k) 1
  /\ (line_count r = 100%Z ->
      line_count (adjust_lines (adjust_lines r 1) (-1)) = 99%Z).
Proof.
  intros Hr. split_and!.
  - by apply adjust_lines_up.
  - by apply adjust_lines_down.
  - intros Hc. rewrite !adjust_lines_count, Hc. reflexivity.
Qed.

Lemma adjust_lines_repeated_witness :
  line_count (Nat.iter 95 (fun r' => adjust_lines r' 1) Sample.renderer1)
    = Z.min (line_count Sample.renderer1 + Z.of_nat 95) 100
  /\ line_count (Nat.iter 95 (fun r' => adjust_lines r' (-1)) Sample.renderer1)
     = Z.max (line_count Sample.renderer1 - Z.of_nat 95) 1
  /\ (line_count Sample.renderer1 = 100%Z ->
      line_count (adjust_lines (adjust_lines Sample.renderer1 1) (-1)) = 99%Z).
Proof.
  apply (adjust_lines_repeated Sample.renderer1 95). vm_compute.
  split; discriminate.
Defined.

(** ** A file that cannot be read *)

(** X21.  [update] stores the new signature before it reads.  When
    [os.stat] finds the file and [open] fails, the tile caches nothing and
    keeps the signature; if the file then becomes readable with the same
    modification time and size, the next [update] returns [False] and the
    tile stays empty until the signature changes. *)
Theorem unreadable_file_stays_blank (w_denied w_allowed : World) (t : TailTile)
    (hp : heap) (st : stat_result) (e : exn) :
  stat_of w_denied (filepath t) = inr st ->
  stat_eqb (st_mtime st, st_size st) (_last_stat t) = false ->
  text_of w_denied (filepath t) = inl e ->
  stat_of w_allowed (filepath t) = inr st ->
  exists t1 hp1,
    update w_denied t hp = Ret (true, t1, hp1)
    /\ content hp1 t1 = []
    /\ _last_stat t1 = (st_mtime st, st_size st)
    /\ update w_allowed t1 hp1 = Ret (false, t1, hp1).
Proof.
  intros Hst Hne He Hst'.
  destruct (update_branches w_denied t hp) as (c & t1 & hp1 & Hrun & Hb).
  destruct (branch_read_error Hb st e Hst Hne He) as [-> Hnil].
  destruct (branch_reread Hb st Hst Hne) as (_ & _ & Hsig).
  exists t1, hp1. split_and!; [done..|].
  eapply update_same_stat.
  - rewrite (branch_filepath Hb). exact Hst'.
  - rewrite Hsig. apply stat_eqb_refl.
Qed.

Lemma unreadable_file_stays_blank_witness :
  exists t1 hp1,
    update Demo.fs_unreadable Sample.tile0 Sample.heap0 = Ret (true, t1, hp1)
    /\ content hp1 t1 = []
    /\ _last_stat t1 = (1700000000.5%Q, 7%Z)
    /\ update Sample.fs_present t1 hp1 = Ret (false, t1, hp1).
Proof.
  apply (unreadable_file_stays_blank Demo.fs_unreadable Sample.fs_present
           Sample.tile0 Sample.heap0
           {| st_mtime := 1700000000.5%Q; st_size := 7 |} PermissionError);
    reflexivity.
Defined.


(** * The program on every string *)

(** ** [update] and the loops over the tiles *)







(** ** Calls on the window *)





(** ** Texts without NUL *)


Lemma no_nul_empty : no_nul EmptyString.
Proof. reflexivity. Qed.
























(** ** Drawing on every string *)












(** ** The loop on every string *)








(** ** [update] on every path *)




(** ** [run_viewer] and [main] on every string *)





(** A line of a file with a NUL character ends the viewer: the first
    [render] hands it to [addstr], whose [ValueError] nothing catches. *)
Example run_viewer_nul_line_raises :
  py_run_viewer Edge.fs_nul_line [Sample.a_log] (1, 1)%Z 3
    [(Edge.fs_nul_line, Demo.screen_24x80, KeyOther)]
  = Raises ValueError.
Proof. vm_compute. reflexivity. Qed.






